(** * Wan SVI 2 Pro FLF nodes: shallow embedding of [nodes.py]

    The two ComfyUI nodes of the repository are embedded as pure functions:

    - [WanImageToVideoSVIProFLF.execute] assembles the conditioning latent
      (anchor, optional motion tail, padding, optional end lock), the
      concat mask and the empty latent for the sampler;
    - [WanCutLastSlot.execute] trims trailing temporal slots.

    Tensors are five-dimensional, [B, C, T, H, W].  A tensor is its shape
    together with its indexing function; the element type stands for the
    values of the tensor's dtype and is only ever copied, never computed
    with, except by the latent format's [process_out], which is a parameter
    of the development.  Device and dtype bookkeeping is not modelled.
    Python integers are [Z]; dimensions are [nat]. *)

From Stdlib Require Import ZArith Lia Bool.
From stdpp Require Import base option gmap strings list.

(** ** Python exceptions and the error monad *)

Inductive torch_op := OpCat | OpCopy | OpAlloc.

Inductive exn :=
| TypeError                      (* subscripting None *)
| KeyError                       (* missing dict key *)
| AttributeError                 (* tensor method on a non-tensor value *)
| RuntimeError (op : torch_op).  (* raised by a torch primitive *)

Inductive result (A : Type) :=
| Ok (a : A)
| Raise (e : exn).
Arguments Ok {A} a.
Arguments Raise {A} e.

#[global] Instance result_ret : MRet result := fun A a => Ok a.
#[global] Instance result_bind : MBind result := fun A B f m =>
  match m with
  | Ok a => f a
  | Raise e => Raise e
  end.

Definition raises {A} (r : result A) : bool :=
  match r with Ok _ => false | Raise _ => true end.

(** ** Tensors *)

Class Dtype (elem : Type) := { zero_val : elem; one_val : elem }.

Record Shape := mkShape
  { dimB : nat; dimC : nat; dimT : nat; dimH : nat; dimW : nat }.

Record Tensor (elem : Type) := mkTensor
  { shape : Shape;
    at5 : nat -> nat -> nat -> nat -> nat -> elem }.
Arguments mkTensor {elem} shape at5.
Arguments shape {elem} t.
Arguments at5 {elem} t b c t0 h w.

(** [(b, c, t, h, w)] is a valid index of a tensor of shape [s]. *)
Definition in_range (s : Shape) (b c t h w : nat) : Prop :=
  b < dimB s /\ c < dimC s /\ t < dimT s /\ h < dimH s /\ w < dimW s.

Definition with_T (s : Shape) (T : nat) : Shape :=
  mkShape (dimB s) (dimC s) T (dimH s) (dimW s).

(** Python slice bounds for step 1: a negative bound counts from the end,
    and both bounds are clipped to [[0, len]]. *)
Definition slice_index (len : nat) (i : option Z) (default : nat) : nat :=
  match i with
  | None => default
  | Some i =>
      if (i <? 0)%Z then Z.to_nat (Z.max (i + Z.of_nat len) 0)
      else Z.to_nat (Z.min i (Z.of_nat len))
  end.

Definition slice_lo (len : nat) (start : option Z) : nat := slice_index len start 0.
Definition slice_hi (len : nat) (stop : option Z) : nat := slice_index len stop len.

(** The temporal slots of a tensor, for display: one value per slot at a
    fixed [(b, c, h, w)]. *)
Definition slots_at {elem} (x : Tensor elem) (b c h w : nat) : list elem :=
  (fun t => at5 x b c t h w) <$> seq 0 (dimT (shape x)).

Section Torch.
Context {elem : Type}.

(** [x[:, :, start:stop]] *)
Definition narrow_time (x : Tensor elem) (start stop : option Z) : Tensor elem :=
  let T := dimT (shape x) in
  let lo := slice_lo T start in
  let hi := slice_hi T stop in
  mkTensor (with_T (shape x) (hi - lo))
           (fun b c t h w => at5 x b c (lo + t) h w).

Definition same_BCHW (s1 s2 : Shape) : bool :=
  (dimB s1 =? dimB s2) && (dimC s1 =? dimC s2)
  && (dimH s1 =? dimH s2) && (dimW s1 =? dimW s2).

(** [torch.cat([x, y], dim=2)]: all other dimensions must agree. *)
Definition cat_time (x y : Tensor elem) : result (Tensor elem) :=
  if same_BCHW (shape x) (shape y) then
    let Tx := dimT (shape x) in
    Ok (mkTensor (with_T (shape x) (Tx + dimT (shape y)))
          (fun b c t h w =>
             if t <? Tx then at5 x b c t h w else at5 y b c (t - Tx) h w))
  else Raise (RuntimeError OpCat).

(** [torch.zeros] / [torch.ones] with a Python integer for the time
    dimension: a negative size is rejected. *)
Definition full (B C : nat) (T : Z) (H W : nat) (v : elem) : result (Tensor elem) :=
  if (T <? 0)%Z then Raise (RuntimeError OpAlloc)
  else Ok (mkTensor (mkShape B C (Z.to_nat T) H W) (fun _ _ _ _ _ => v)).

(** [x.repeat(n, 1, 1, 1, 1)] *)
Definition repeat_batch (x : Tensor elem) (n : nat) : Tensor elem :=
  let s := shape x in
  mkTensor (mkShape (dimB s * n) (dimC s) (dimT s) (dimH s) (dimW s))
           (fun b c t h w => at5 x (b mod dimB s) c t h w).

(** Broadcasting of a source dimension [n] to a target dimension [m]:
    allowed when they agree or the source has size 1. *)
Definition bcast_ok (n m : nat) : bool := (n =? m) || (n =? 1).
Definition bcast_index (n i : nat) : nat := if n =? 1 then 0 else i.

Definition broadcastable (src dst : Shape) : bool :=
  bcast_ok (dimB src) (dimB dst) && bcast_ok (dimC src) (dimC dst)
  && bcast_ok (dimT src) (dimT dst) && bcast_ok (dimH src) (dimH dst)
  && bcast_ok (dimW src) (dimW dst).

(** [dst[:, :, start:stop] = src], on a copy of [dst]. *)
Definition setitem_time (dst : Tensor elem) (start stop : option Z)
    (src : Tensor elem) : result (Tensor elem) :=
  let T := dimT (shape dst) in
  let lo := slice_lo T start in
  let hi := slice_hi T stop in
  let ss := shape src in
  if broadcastable ss (with_T (shape dst) (hi - lo)) then
    Ok (mkTensor (shape dst)
          (fun b c t h w =>
             if (lo <=? t) && (t <? hi) then
               at5 src (bcast_index (dimB ss) b) (bcast_index (dimC ss) c)
                       (bcast_index (dimT ss) (t - lo))
                       (bcast_index (dimH ss) h) (bcast_index (dimW ss) w)
             else at5 dst b c t h w))
  else Raise (RuntimeError OpCopy).

(** [dst[:, :, start:stop] = v] for a scalar [v]. *)
Definition fill_time (dst : Tensor elem) (start stop : option Z) (v : elem)
    : Tensor elem :=
  let T := dimT (shape dst) in
  let lo := slice_lo T start in
  let hi := slice_hi T stop in
  mkTensor (shape dst)
    (fun b c t h w =>
       if (lo <=? t) && (t <? hi) then v else at5 dst b c t h w).
End Torch.

(** ** Latent containers and conditioning *)

(** A value stored in a host dictionary: a tensor, or anything else. *)
Inductive pyval (elem : Type) :=
| PTensor (x : Tensor elem)
| POpaque (tag : Z).
Arguments PTensor {elem} x.
Arguments POpaque {elem} tag.

(** [d["samples"]] followed by a tensor method or attribute. *)
Definition getitem_samples {elem} (d : gmap string (pyval elem)) : result (Tensor elem) :=
  match d !! "samples" with
  | None => Raise KeyError
  | Some (PTensor x) => Ok x
  | Some (POpaque _) => Raise AttributeError
  end.

(** The same on an input that may be [None]. *)
Definition subscript_samples {elem} (o : option (gmap string (pyval elem)))
    : result (Tensor elem) :=
  match o with
  | None => Raise TypeError
  | Some d => getitem_samples d
  end.

(** A conditioning is a list of entries [[cond, options]]; the first
    component is opaque here. *)
Definition cond_entry (elem : Type) : Type := (Z * gmap string (pyval elem))%type.

(** [node_helpers.conditioning_set_values] of the host: every entry's
    options are copied and the given keys set or overwritten. *)
Definition conditioning_set_values {elem} (conditioning : list (cond_entry elem))
    (values : gmap string (pyval elem)) : list (cond_entry elem) :=
  (fun t => (t.1, values ∪ t.2)) <$> conditioning.

Record NodeOutput (elem : Type) := mkNodeOutput
  { out_positive : list (cond_entry elem);
    out_negative : list (cond_entry elem);
    out_latent : gmap string (pyval elem) }.
Arguments mkNodeOutput {elem} _ _ _.
Arguments out_positive {elem} _.
Arguments out_negative {elem} _.
Arguments out_latent {elem} _.

(** ** Node schemas

    What [define_schema] declares, without the tooltips: the node id, the
    category, the input ports with their defaults and ranges, and the
    output ports. *)

Inductive input_spec :=
| ConditioningInput (name : string)
| IntInput (name : string) (default min max step : Z)
| LatentInput (name : string) (optional : bool).

Inductive output_spec :=
| ConditioningOutput (display_name : string)
| LatentOutput (display_name : string).

Record Schema := mkSchema
  { node_id : string;
    category : string;
    inputs : list input_spec;
    outputs : list output_spec }.

(** The value [v] lies in the range that the schema declares for the
    integer input [name]. *)
Definition admits (s : Schema) (name : string) (v : Z) : Prop :=
  exists default min max step,
    IntInput name default min max step ∈ inputs s /\ (min <= v <= max)%Z.

(** ** WanCutLastSlot *)

Module WanCutLastSlot.

Definition define_schema : Schema :=
  mkSchema "WanCutLastSlot" "latent/video"
    [LatentInput "latents" false;
     IntInput "slots_to_cut" 1 1 64 1]
    [LatentOutput "trimmed_latents"].

Section Node.
Context {elem : Type}.

(** The number of slots removed, [n = max(1, min(slots_to_cut, T - 1))]. *)
Definition cut_count (T slots_to_cut : Z) : Z :=
  Z.max 1 (Z.min slots_to_cut (T - 1)).

Definition execute (latents : gmap string (pyval elem)) (slots_to_cut : Z)
    : result (gmap string (pyval elem)) :=
  x ← getitem_samples latents;
  let T := Z.of_nat (dimT (shape x)) in
  let n := cut_count T slots_to_cut in
  let x_trim := narrow_time x None (Some (T - n)%Z) in
  mret (<["samples" := PTensor x_trim]> latents).
End Node.
End WanCutLastSlot.

(** ** WanImageToVideoSVIProFLF *)

Module WanImageToVideoSVIProFLF.

(** [MAX_RESOLUTION] is a constant of the host. *)
Definition define_schema (MAX_RESOLUTION : Z) : Schema :=
  mkSchema "WanImageToVideoSVIProFLF" "conditioning/video_models"
    [ConditioningInput "positive";
     ConditioningInput "negative";
     IntInput "length" 81 1 MAX_RESOLUTION 4;
     LatentInput "prev_samples" false;
     LatentInput "anchor_samples" false;
     LatentInput "end_samples" true;
     IntInput "motion_latent_count" 1 0 16 1]
    [ConditioningOutput "positive";
     ConditioningOutput "negative";
     LatentOutput "latent"].

Section Node.
Context {elem : Type} {DT : Dtype elem}.

(** [comfy.latent_formats.Wan21().process_out], supplied by the host. *)
Variable process_out : Tensor elem -> Tensor elem.

(** [total_latents = (length - 1) // 4 + 1]; Python's [//] on a positive
    divisor is [Z.div]. *)
Definition total_latents_of (length : Z) : Z := ((length - 1) / 4 + 1)%Z.

(** 1) Base temporal block: anchor plus optional motion tail. *)
Definition base_block (anchor_latent : Tensor elem)
    (prev_samples : option (gmap string (pyval elem)))
    (motion_latent_count : Z) : result (Tensor elem) :=
  match prev_samples with
  | None => mret anchor_latent
  | Some prev =>
      if (motion_latent_count =? 0)%Z then mret anchor_latent
      else
        prev_latent ← getitem_samples prev;
        let T_prev := Z.of_nat (dimT (shape prev_latent)) in
        let motion_count := Z.min motion_latent_count T_prev in
        if (0 <? motion_count)%Z then
          let motion_latent :=
            narrow_time prev_latent (Some (- motion_count)%Z) None in
          cat_time anchor_latent motion_latent
        else mret anchor_latent
  end.

(** 2) Pad with processed zeros, or truncate, to [total_latents]. *)
Definition pad_block (base_latent : Tensor elem) (B C H W : nat)
    (total_latents : Z) : result (Tensor elem) :=
  let T_base := Z.of_nat (dimT (shape base_latent)) in
  let padding_size := Z.max (total_latents - T_base) 0 in
  image_cond_latent ←
    (if (0 <? padding_size)%Z then
       padding ← full B C padding_size H W zero_val;
       cat_time base_latent (process_out padding)
     else mret (narrow_time base_latent None (Some total_latents)));
  if negb (Z.of_nat (dimT (shape image_cond_latent)) =? total_latents)%Z then
    mret (narrow_time image_cond_latent None (Some total_latents))
  else mret image_cond_latent.

(** 3) End lock: returns the block and [end_t_fix]. *)
Definition end_lock (image_cond_latent : Tensor elem) (B C H W : nat)
    (total_latents : Z) (end_samples : option (gmap string (pyval elem)))
    : result (Tensor elem * Z) :=
  match end_samples with
  | None => mret (image_cond_latent, 0%Z)
  | Some e =>
      end_latent ← getitem_samples e;
      let end_latent :=
        if (dimB (shape end_latent) =? 1) && (1 <? B)
        then repeat_batch end_latent B else end_latent in
      if (dimC (shape end_latent) =? C) && (dimH (shape end_latent) =? H)
         && (dimW (shape end_latent) =? W)
      then
        let T_end := Z.of_nat (dimT (shape end_latent)) in
        let end_t_fix := Z.min T_end total_latents in
        if (0 <? end_t_fix)%Z then
          locked ← setitem_time image_cond_latent (Some (- end_t_fix)%Z) None
                     (narrow_time end_latent (Some (- end_t_fix)%Z) None);
          mret (locked, end_t_fix)
        else mret (image_cond_latent, end_t_fix)
      else mret (image_cond_latent, 0%Z)
  end.

(** 5) Mask: slot 0 and the last [end_t_fix] slots are locked. *)
Definition concat_mask (total_latents : Z) (H W : nat) (end_t_fix : Z)
    : result (Tensor elem) :=
  mask ← full 1 1 total_latents H W one_val;
  let mask := fill_time mask None (Some 1%Z) zero_val in
  mret (if (0 <? end_t_fix)%Z
        then fill_time mask (Some (- end_t_fix)%Z) None zero_val
        else mask).

(** What steps 1 to 5 compute. *)
Record Assembled := mkAssembled
  { image_cond_latent : Tensor elem;
    end_t_fix : Z;
    empty_latent : Tensor elem;
    mask : Tensor elem }.

Definition assemble (length : Z)
    (prev_samples anchor_samples : option (gmap string (pyval elem)))
    (motion_latent_count : Z)
    (end_samples : option (gmap string (pyval elem))) : result Assembled :=
  anchor_latent ← subscript_samples anchor_samples;
  let B := dimB (shape anchor_latent) in
  let C := dimC (shape anchor_latent) in
  let H := dimH (shape anchor_latent) in
  let W := dimW (shape anchor_latent) in
  let total_latents := total_latents_of length in
  base_latent ← base_block anchor_latent prev_samples motion_latent_count;
  padded ← pad_block base_latent B C H W total_latents;
  '(locked, end_t_fix) ← end_lock padded B C H W total_latents end_samples;
  empty_latent ← full B 16 total_latents H W zero_val;
  mask ← concat_mask total_latents H W end_t_fix;
  mret (mkAssembled locked end_t_fix empty_latent mask).

(** 6) Inject the block and the mask into both conditionings. *)
Definition execute (positive negative : list (cond_entry elem)) (length : Z)
    (prev_samples anchor_samples : option (gmap string (pyval elem)))
    (motion_latent_count : Z)
    (end_samples : option (gmap string (pyval elem))) : result (NodeOutput elem) :=
  a ← assemble length prev_samples anchor_samples motion_latent_count end_samples;
  let values : gmap string (pyval elem) :=
    <["concat_latent_image" := PTensor (image_cond_latent a)]>
      {["concat_mask" := PTensor (mask a)]} in
  mret (mkNodeOutput (conditioning_set_values positive values)
                     (conditioning_set_values negative values)
                     {["samples" := PTensor (empty_latent a)]}).
End Node.
End WanImageToVideoSVIProFLF.

(** ** Node registration ([__init__.py]) *)

Inductive node_class := WanImageToVideoSVIProFLF_class | WanCutLastSlot_class.

Definition schema_of (MAX_RESOLUTION : Z) (c : node_class) : Schema :=
  match c with
  | WanImageToVideoSVIProFLF_class =>
      WanImageToVideoSVIProFLF.define_schema MAX_RESOLUTION
  | WanCutLastSlot_class => WanCutLastSlot.define_schema
  end.

Definition NODE_CLASS_MAPPINGS : gmap string node_class :=
  <["WanImageToVideoSVIProFLF" := WanImageToVideoSVIProFLF_class]>
    {["WanCutLastSlot" := WanCutLastSlot_class]}.

Definition NODE_DISPLAY_NAME_MAPPINGS : gmap string string :=
  <["WanImageToVideoSVIProFLF" := "Wan SVI 2 Pro FLF"]>
    {["WanCutLastSlot" := "Wan Cut Last Slot"]}.

(** ** Concrete data for the examples *)

#[global] Instance Z_dtype : Dtype Z := {| zero_val := 0%Z; one_val := 1%Z |}.

(** A tensor whose entries tell their batch and time position apart:
    [base + 100 * b + t]. *)
Definition ramp (s : Shape) (base : Z) : Tensor Z :=
  mkTensor s (fun b _ t _ _ => (base + 100 * Z.of_nat b + Z.of_nat t)%Z).

(** An affine, per-channel stand-in for the latent format's transform:
    zero is sent to [7 + c], not to zero. *)
Definition affine_out (x : Tensor Z) : Tensor Z :=
  mkTensor (shape x) (fun b c t h w => (2 * at5 x b c t h w + 7 + Z.of_nat c)%Z).

Definition latent_of {elem} (x : Tensor elem) : gmap string (pyval elem) :=
  {["samples" := PTensor x]}.

(** Temporal length of the result's ["samples"] tensor, if there is one. *)
Definition samples_T {elem} (r : result (gmap string (pyval elem))) : option nat :=
  match r with
  | Ok d =>
      match d !! "samples" with
      | Some (PTensor x) => Some (dimT (shape x))
      | _ => None
      end
  | Raise _ => None
  end.

(** Concrete inputs used below. *)
Definition anchor1 : Tensor Z := ramp (mkShape 1 4 1 8 8) 10.
Definition prev3 : Tensor Z := ramp (mkShape 1 4 3 8 8) 50.
Definition prev2 : Tensor Z := ramp (mkShape 1 4 2 8 8) 50.
Definition end2 : Tensor Z := ramp (mkShape 1 4 2 8 8) 90.

Definition end_b2 : Tensor Z := ramp (mkShape 2 4 1 8 8) 90.
Definition end3 : Tensor Z := ramp (mkShape 1 4 3 8 8) 90.
Definition end_c3 : Tensor Z := ramp (mkShape 1 3 2 8 8) 90.

(** An optional input block is absent, or is a tensor with the anchor's
    batch, channel, height and width. *)
Definition shares_shape {elem} (anchor : Tensor elem)
    (o : option (gmap string (pyval elem))) : Prop :=
  match o with
  | None => True
  | Some d => exists x, getitem_samples d = Ok x
                        /\ same_BCHW (shape anchor) (shape x) = true
  end.

(** ** The specification's side of two claims

    The next three definitions follow the words of the specification, not the
    code; the theorems below compare them with [execute]. *)

(** The number of trailing slots the specification has locked: with an end
    block whose channel, height and width are the anchor's,
    [min T_end total_latents]; none otherwise. *)
Definition spec_locked_tail {elem} (C H W : nat) (total_latents : Z)
    (end_samples : option (gmap string (pyval elem))) : Z :=
  match end_samples with
  | None => 0%Z
  | Some e =>
      match getitem_samples e with
      | Ok x =>
          if (dimC (shape x) =? C) && (dimH (shape x) =? H) && (dimW (shape x) =? W)
          then Z.min (Z.of_nat (dimT (shape x))) total_latents
          else 0%Z
      | Raise _ => 0%Z
      end
  end.

(** A given container without the ["samples"] key. *)
Definition lacks_samples {elem} (o : option (gmap string (pyval elem))) : bool :=
  match o with
  | Some d => bool_decide (d !! "samples" = None)
  | None => false
  end.

(** The malformed inputs of the specification: the anchor is missing, or
    one of the input containers lacks the ["samples"] key. *)
Definition spec_malformed {elem}
    (prev_samples anchor_samples end_samples : option (gmap string (pyval elem)))
    : bool :=
  bool_decide (anchor_samples = None)
  || lacks_samples anchor_samples || lacks_samples prev_samples
  || lacks_samples end_samples.

(** ** When the assembler returns

    The conditions under which each step of [execute] goes through, as
    boolean tests on the inputs. *)




(** More concrete inputs. *)
Definition anchor_b3 : Tensor Z := ramp (mkShape 3 4 1 8 8) 10.
Definition prev_c3 : Tensor Z := ramp (mkShape 1 3 3 8 8) 50.
Definition prev_empty_c3 : Tensor Z := ramp (mkShape 1 3 0 8 8) 50.
Definition end_empty : Tensor Z := ramp (mkShape 1 4 0 8 8) 90.
Definition clip5 : Tensor Z := ramp (mkShape 1 4 5 8 8) 0.
Definition clip70 : Tensor Z := ramp (mkShape 1 4 70 8 8) 0.

(** * Properties *)

(** ** Case analysis on the boolean tests of the code *)

Ltac btest :=
  repeat match goal with
  | |- context [Z.ltb ?a ?b] => destruct (Z.ltb_spec a b)
  | |- context [Z.eqb ?a ?b] => destruct (Z.eqb_spec a b)
  | |- context [Nat.ltb ?a ?b] => destruct (Nat.ltb_spec a b)
  | |- context [Nat.leb ?a ?b] => destruct (Nat.leb_spec a b)
  | |- context [Nat.eqb ?a ?b] => destruct (Nat.eqb_spec a b)
  end; simpl.

(** ** Python slices *)

#[global] Arguments slice_lo : simpl never.
#[global] Arguments slice_hi : simpl never.

Lemma slice_lo_none len : slice_lo len None = 0.
Proof. reflexivity. Qed.

Lemma slice_hi_none len : slice_hi len None = len.
Proof. reflexivity. Qed.

(** [-k:] with [k > 0] starts [min k len] slots before the end. *)
Lemma slice_lo_last len (k : Z) :
  (0 < k)%Z -> slice_lo len (Some (- k)%Z) = len - Z.to_nat (Z.min k (Z.of_nat len)).
Proof. intros Hk. unfold slice_lo, slice_index. btest; lia. Qed.

(** [:n] with [n >= 0] stops after [min n len] slots. *)
Lemma slice_hi_first len (n : Z) :
  (0 <= n)%Z -> slice_hi len (Some n) = Z.to_nat (Z.min n (Z.of_nat len)).
Proof. intros Hn. unfold slice_hi, slice_index. btest; lia. Qed.

Lemma slice_hi_le len stop : slice_hi len stop <= len.
Proof. unfold slice_hi, slice_index. destruct stop; btest; lia. Qed.

Lemma narrow_time_shape {elem} (x : Tensor elem) start stop :
  shape (narrow_time x start stop)
  = with_T (shape x) (slice_hi (dimT (shape x)) stop - slice_lo (dimT (shape x)) start).
Proof. reflexivity. Qed.

Lemma cat_time_ok {elem} (x y : Tensor elem) :
  same_BCHW (shape x) (shape y) = true ->
  cat_time x y =
    Ok (mkTensor (with_T (shape x) (dimT (shape x) + dimT (shape y)))
          (fun b c t h w =>
             if t <? dimT (shape x) then at5 x b c t h w
             else at5 y b c (t - dimT (shape x)) h w)).
Proof. intros E. unfold cat_time. now rewrite E. Qed.

Lemma same_BCHW_spec s1 s2 :
  same_BCHW s1 s2 = true <->
  dimB s1 = dimB s2 /\ dimC s1 = dimC s2 /\ dimH s1 = dimH s2 /\ dimW s1 = dimW s2.
Proof.
  unfold same_BCHW. rewrite !andb_true_iff, !Nat.eqb_eq. tauto.
Qed.

Lemma same_BCHW_with_T s T : same_BCHW s (with_T s T) = true.
Proof. apply same_BCHW_spec. now destruct s. Qed.

(** ** WanCutLastSlot *)

(** The trimmed clip keeps [max (T - n) 0] slots. *)
Lemma cut_execute_samples_T {elem} (latents : gmap string (pyval elem)) x slots_to_cut :
  getitem_samples latents = Ok x ->
  samples_T (WanCutLastSlot.execute latents slots_to_cut)
  = Some (Z.to_nat (Z.of_nat (dimT (shape x))
                    - WanCutLastSlot.cut_count (Z.of_nat (dimT (shape x))) slots_to_cut)).
Proof.
  intros Hx. unfold WanCutLastSlot.execute. rewrite Hx. simpl.
  rewrite lookup_insert_eq. f_equal.
  unfold narrow_time, slice_hi, slice_index, slice_lo, WanCutLastSlot.cut_count.
  simpl. btest; lia.
Qed.

(** With at least two slots the trimmer keeps at least one and removes at
    least one. *)
Lemma cut_execute_bounds {elem} (latents : gmap string (pyval elem)) x slots_to_cut :
  getitem_samples latents = Ok x ->
  2 <= dimT (shape x) -> (1 <= slots_to_cut)%Z ->
  exists T', samples_T (WanCutLastSlot.execute latents slots_to_cut) = Some T'
             /\ 1 <= T' < dimT (shape x).
Proof.
  intros Hx HT Hs. eexists. split; [apply (cut_execute_samples_T _ _ _ Hx)|].
  unfold WanCutLastSlot.cut_count. lia.
Qed.

(** A clip with a single slot loses it, whatever the requested count. *)
Lemma cut_execute_single_slot {elem} (latents : gmap string (pyval elem)) x slots_to_cut :
  getitem_samples latents = Ok x ->
  dimT (shape x) = 1 ->
  samples_T (WanCutLastSlot.execute latents slots_to_cut) = Some 0.
Proof.
  intros Hx HT. rewrite (cut_execute_samples_T _ _ _ Hx), HT.
  unfold WanCutLastSlot.cut_count. f_equal. lia.
Qed.

(** C1. TrailingSlotTrimmer is meant to leave at least one slot; on a clip
    with exactly one temporal slot and [slots_to_cut = 1] the code computes
    [n = max 1 (min 1 0) = 1] and returns an empty clip ([T = 0]). *)
Theorem cut_last_slot_empties_single_slot_clip :
  getitem_samples (latent_of anchor1) = Ok anchor1
  /\ dimT (shape anchor1) = 1
  /\ WanCutLastSlot.cut_count 1 1 = 1%Z
  /\ samples_T (WanCutLastSlot.execute (latent_of anchor1) 1) = Some 0.
Proof.
  split; [reflexivity|]. split; [reflexivity|]. split; [reflexivity|].
  now apply (cut_execute_single_slot _ anchor1).
Qed.

(** ** Temporal slot count *)

(** C4. For every integer [length], [total_latents] is the floor of
    [(length - 1) / 4] plus one: [q = total_latents - 1] is the integer
    with [4 q <= length - 1 < 4 q + 4]; and 81, 41, 1, 4, 5 give
    21, 11, 1, 1, 2. *)
Theorem total_latents_floor (length : Z) :
  (4 * (WanImageToVideoSVIProFLF.total_latents_of length - 1) <= length - 1
   < 4 * (WanImageToVideoSVIProFLF.total_latents_of length - 1) + 4)%Z
  /\ WanImageToVideoSVIProFLF.total_latents_of 81 = 21%Z
  /\ WanImageToVideoSVIProFLF.total_latents_of 41 = 11%Z
  /\ WanImageToVideoSVIProFLF.total_latents_of 1 = 1%Z
  /\ WanImageToVideoSVIProFLF.total_latents_of 4 = 1%Z
  /\ WanImageToVideoSVIProFLF.total_latents_of 5 = 2%Z.
Proof.
  unfold WanImageToVideoSVIProFLF.total_latents_of.
  repeat split; try reflexivity.
  - pose proof (Z.mul_div_le (length - 1) 4). lia.
  - pose proof (Z.mul_succ_div_gt (length - 1) 4). lia.
Qed.

(** ** SegmentLatentAssembler, step 1: the base block *)

Section BaseBlock.
Context {elem : Type}.
Import WanImageToVideoSVIProFLF.

Lemma base_block_no_prev (anchor : Tensor elem) mlc :
  base_block anchor None mlc = Ok anchor.
Proof. reflexivity. Qed.

Lemma base_block_no_motion (anchor : Tensor elem) prev_samples :
  base_block anchor prev_samples 0 = Ok anchor.
Proof. now destruct prev_samples. Qed.

(** The base block always has the anchor's batch, channel and spatial
    dimensions, and at least the anchor's slots. *)
Lemma base_block_shape (anchor base : Tensor elem) prev_samples mlc :
  base_block anchor prev_samples mlc = Ok base ->
  same_BCHW (shape anchor) (shape base) = true
  /\ dimT (shape anchor) <= dimT (shape base).
Proof.
  unfold base_block. intros Hb.
  assert (Hrefl : same_BCHW (shape anchor) (shape anchor) = true)
    by (apply same_BCHW_spec; tauto).
  destruct prev_samples as [prev|]; [|injection Hb as <-; auto].
  destruct (Z.eqb_spec mlc 0); [injection Hb as <-; auto|].
  destruct (getitem_samples prev) as [prev_latent|]; simpl in Hb; [|discriminate].
  destruct (Z.ltb_spec 0 (Z.min mlc (Z.of_nat (dimT (shape prev_latent)))));
    [|injection Hb as <-; auto].
  unfold cat_time in Hb.
  destruct (same_BCHW _ _); [|discriminate].
  injection Hb as <-. simpl. split; [apply same_BCHW_with_T | lia].
Qed.

(** C5. Without [prev_samples], or with [motion_latent_count = 0], the base
    block is the anchor alone.  Otherwise, for a previous block with the
    anchor's batch, channel and spatial dimensions, exactly
    [motion_count = min motion_latent_count T_prev] trailing slots of the
    previous block follow the anchor's slots, [T_base = T_anchor +
    motion_count], and no error is raised however large
    [motion_latent_count] is. *)
Theorem base_block_motion_tail (anchor : Tensor elem)
    (prev_samples : option (gmap string (pyval elem))) (mlc : Z) :
  (prev_samples = None \/ mlc = 0%Z ->
     base_block anchor prev_samples mlc = Ok anchor)
  /\ (forall prev prev_latent,
        prev_samples = Some prev ->
        getitem_samples prev = Ok prev_latent ->
        same_BCHW (shape anchor) (shape prev_latent) = true ->
        (0 < mlc)%Z ->
        let T_anchor := dimT (shape anchor) in
        let T_prev := dimT (shape prev_latent) in
        let motion_count := Z.to_nat (Z.min mlc (Z.of_nat T_prev)) in
        exists base,
          base_block anchor prev_samples mlc = Ok base
          /\ shape base = with_T (shape anchor) (T_anchor + motion_count)
          /\ (forall b c t h w, t < T_anchor ->
                at5 base b c t h w = at5 anchor b c t h w)
          /\ (forall b c t h w, t < motion_count ->
                at5 base b c (T_anchor + t) h w
                = at5 prev_latent b c (T_prev - motion_count + t) h w)).
Proof.
  split.
  - intros [-> | ->]; [apply base_block_no_prev | apply base_block_no_motion].
  - intros prev prev_latent -> Hprev Hsame Hpos T_anchor T_prev motion_count.
    unfold base_block. rewrite Hprev. simpl.
    destruct (Z.eqb_spec mlc 0); [lia|].
    destruct (Z.ltb_spec 0 (Z.min mlc (Z.of_nat (dimT (shape prev_latent))))) as [Hm|Hm].
    + rewrite cat_time_ok by (now rewrite narrow_time_shape).
      eexists. split; [reflexivity|]. simpl.
      rewrite slice_lo_last by exact Hm.
      fold T_prev. fold T_anchor.
      assert (Hmin : Z.to_nat (Z.min (Z.min mlc (Z.of_nat T_prev)) (Z.of_nat T_prev))
                     = motion_count) by (unfold motion_count; lia).
      rewrite Hmin.
      assert (Hle : motion_count <= T_prev) by (unfold motion_count; lia).
      repeat split.
      * unfold with_T. f_equal. unfold slice_hi, slice_index. lia.
      * intros b c t h w Ht. destruct (Nat.ltb_spec t T_anchor); [reflexivity | lia].
      * intros b c t h w Ht.
        destruct (Nat.ltb_spec (T_anchor + t) T_anchor); [lia|].
        f_equal. lia.
    + exists anchor. unfold motion_count.
      replace (Z.to_nat (Z.min mlc (Z.of_nat T_prev))) with 0 by (unfold T_prev; lia).
      repeat split.
      * unfold with_T, T_anchor. destruct anchor as [[]]; simpl. f_equal. lia.
      * intros; lia.
Qed.
End BaseBlock.

(** With [T_prev = 2] and [motion_latent_count = 5], exactly two slots of
    the previous block are used. *)
Lemma base_block_motion_tail_witness :
  WanImageToVideoSVIProFLF.base_block anchor1 None 5 = Ok anchor1
  /\ exists base,
       WanImageToVideoSVIProFLF.base_block anchor1 (Some (latent_of prev2)) 5 = Ok base
       /\ shape base = mkShape 1 4 (1 + 2) 8 8
       /\ slots_at base 0 0 0 0 = [10; 50; 51]%Z.
Proof.
  split.
  - apply (proj1 (base_block_motion_tail anchor1 None 5)). now left.
  - destruct (proj2 (base_block_motion_tail anchor1 (Some (latent_of prev2)) 5)
                (latent_of prev2) prev2 eq_refl eq_refl eq_refl eq_refl)
      as (base & Hb & Hs & _).
    exists base. split; [exact Hb|]. split; [exact Hs|].
    vm_compute in Hb. injection Hb as <-. reflexivity.
Defined.

(** ** SegmentLatentAssembler, steps 2 to 5 *)

Section Stages.
Context {elem : Type} {DT : Dtype elem}.
Variable process_out : Tensor elem -> Tensor elem.
Import WanImageToVideoSVIProFLF.

Lemma full_ok B C (T : Z) H W (v : elem) :
  (0 <= T)%Z ->
  full B C T H W v = Ok (mkTensor (mkShape B C (Z.to_nat T) H W) (fun _ _ _ _ _ => v)).
Proof. intros HT. unfold full. destruct (Z.ltb_spec T 0); [lia | reflexivity]. Qed.

Lemma full_inv B C (T : Z) H W (v : elem) x :
  full B C T H W v = Ok x ->
  (0 <= T)%Z /\ x = mkTensor (mkShape B C (Z.to_nat T) H W) (fun _ _ _ _ _ => v).
Proof.
  unfold full. destruct (Z.ltb_spec T 0); [discriminate|].
  intros [= <-]. auto.
Qed.

(** *** Step 2 *)

(** When the base block is shorter than the target, the padded block is
    the base followed by the processed zero block. *)
Lemma pad_block_pads (base : Tensor elem) total :
  (forall x, shape (process_out x) = shape x) ->
  (Z.of_nat (dimT (shape base)) < total)%Z ->
  let s := shape base in
  let zeros := mkTensor (mkShape (dimB s) (dimC s)
                           (Z.to_nat (total - Z.of_nat (dimT s))) (dimH s) (dimW s))
                        (fun _ _ _ _ _ => zero_val) in
  full (dimB s) (dimC s) (total - Z.of_nat (dimT s)) (dimH s) (dimW s) zero_val
    = Ok zeros
  /\ pad_block process_out base (dimB s) (dimC s) (dimH s) (dimW s) total
     = Ok (mkTensor (with_T s (dimT s + Z.to_nat (total - Z.of_nat (dimT s))))
             (fun b c t h w =>
                if t <? dimT s then at5 base b c t h w
                else at5 (process_out zeros) b c (t - dimT s) h w)).
Proof.
  intros Hshape Hlt. cbv zeta. set (s := shape base) in *.
  set (zeros := mkTensor _ _).
  assert (Hfull : full (dimB s) (dimC s) (total - Z.of_nat (dimT s)) (dimH s) (dimW s)
                    zero_val = Ok zeros) by (apply full_ok; lia).
  split; [exact Hfull|].
  unfold pad_block. fold s.
  replace (Z.max (total - Z.of_nat (dimT s)) 0) with (total - Z.of_nat (dimT s))%Z by lia.
  destruct (Z.ltb_spec 0 (total - Z.of_nat (dimT s))); [|lia].
  rewrite Hfull. simpl.
  rewrite cat_time_ok
    by (rewrite Hshape; apply same_BCHW_spec; simpl; tauto).
  simpl. rewrite Hshape. simpl. fold s.
  destruct (Z.eqb_spec (Z.of_nat (dimT s + Z.to_nat (total - Z.of_nat (dimT s)))) total);
    [reflexivity | lia].
Qed.

(** Otherwise the base block is cut to its first [total_latents] slots. *)
Lemma pad_block_truncates (base : Tensor elem) B C H W total :
  (0 <= total <= Z.of_nat (dimT (shape base)))%Z ->
  pad_block process_out base B C H W total
  = Ok (narrow_time base None (Some total)).
Proof.
  intros Hle. unfold pad_block.
  replace (Z.max (total - Z.of_nat (dimT (shape base))) 0) with 0%Z by lia.
  simpl.
  rewrite slice_hi_first, slice_lo_none by lia.
  destruct (Z.eqb_spec
              (Z.of_nat (Z.to_nat (Z.min total (Z.of_nat (dimT (shape base)))) - 0))
              total); [reflexivity | lia].
Qed.

(** The padded block has exactly [total_latents] slots and the base
    block's other dimensions. *)
Lemma pad_block_shape (base : Tensor elem) total :
  (forall x, shape (process_out x) = shape x) ->
  (0 <= total)%Z ->
  let s := shape base in
  exists padded,
    pad_block process_out base (dimB s) (dimC s) (dimH s) (dimW s) total = Ok padded
    /\ shape padded = with_T s (Z.to_nat total).
Proof.
  intros Hshape Hpos. cbv zeta.
  destruct (Z.lt_ge_cases (Z.of_nat (dimT (shape base))) total) as [Hlt|Hge].
  - destruct (pad_block_pads base total Hshape Hlt) as [_ Hpad].
    eexists. split; [exact Hpad|]. cbn [shape]. unfold with_T. f_equal. lia.
  - eexists. split; [apply pad_block_truncates; lia|].
    rewrite narrow_time_shape, slice_hi_first, slice_lo_none by lia.
    unfold with_T. f_equal. lia.
Qed.

(** *** Step 5 *)

(** The mask: slot 0 and the last [min end_t_fix total_latents] slots are
    zero, every other slot is one. *)
Lemma concat_mask_spec total H W etf (m : Tensor elem) :
  concat_mask total H W etf = Ok m ->
  (0 <= total)%Z
  /\ shape m = mkShape 1 1 (Z.to_nat total) H W
  /\ forall b c t h w, t < Z.to_nat total ->
       at5 m b c t h w
       = if (t =? 0) || (Z.to_nat total - Z.to_nat (Z.min etf total) <=? t)
         then zero_val else one_val.
Proof.
  unfold concat_mask. intros Hm.
  destruct (full 1 1 total H W one_val) as [ones|] eqn:Hfull; [|discriminate].
  apply full_inv in Hfull as [Hpos ->]. simpl in Hm.
  injection Hm as <-. split; [exact Hpos|].
  split; [now destruct (0 <? etf)%Z|].
  intros b c t h w Ht.
  destruct (Z.ltb_spec 0 etf) as [Hetf|Hetf]; simpl.
  - rewrite slice_lo_last, slice_hi_none, slice_hi_first by lia.
    rewrite Z2Nat.id by lia.
    btest; try reflexivity; lia.
  - rewrite slice_hi_first by lia.
    btest; try reflexivity; lia.
Qed.
End Stages.

(** *** Step 3: the end lock *)

Section EndLock.
Context {elem : Type}.
Import WanImageToVideoSVIProFLF.

Implicit Types (img x : Tensor elem) (e : gmap string (pyval elem)).

(** An end block whose channel, height or width differs is ignored. *)
Lemma end_lock_mismatch img B C H W total e x :
  getitem_samples e = Ok x ->
  dimC (shape x) <> C \/ dimH (shape x) <> H \/ dimW (shape x) <> W ->
  end_lock img B C H W total (Some e) = Ok (img, 0%Z).
Proof.
  intros Hx Hne. unfold end_lock. rewrite Hx. simpl.
  assert (Hchk : forall y : Tensor elem,
             dimC (shape y) = dimC (shape x) -> dimH (shape y) = dimH (shape x) ->
             dimW (shape y) = dimW (shape x) ->
             (dimC (shape y) =? C) && (dimH (shape y) =? H) && (dimW (shape y) =? W)
             = false).
  { intros y -> -> ->. btest; try reflexivity; lia. }
  destruct ((dimB (shape x) =? 1) && (1 <? B)); rewrite Hchk; reflexivity.
Qed.

(** [end_t_fix] is what the specification says it is. *)
Lemma end_lock_fix img B C H W total end_samples locked k :
  end_lock img B C H W total end_samples = Ok (locked, k) ->
  k = spec_locked_tail C H W total end_samples.
Proof.
  unfold end_lock, spec_locked_tail.
  destruct end_samples as [e|]; [|now intros [= _ <-]].
  destruct (getitem_samples e) as [x|]; simpl; [|discriminate].
  assert (Hdims : forall y : Tensor elem,
             y = (if (dimB (shape x) =? 1) && (1 <? B) then repeat_batch x B else x) ->
             dimC (shape y) = dimC (shape x) /\ dimH (shape y) = dimH (shape x)
             /\ dimW (shape y) = dimW (shape x) /\ dimT (shape y) = dimT (shape x)).
  { intros y ->. destruct ((dimB (shape x) =? 1) && (1 <? B)); simpl; auto. }
  destruct (Hdims _ eq_refl) as (-> & -> & -> & ->).
  destruct ((dimC (shape x) =? C) && (dimH (shape x) =? H) && (dimW (shape x) =? W));
    [|now intros [= _ <-]].
  destruct (0 <? Z.min (Z.of_nat (dimT (shape x))) total)%Z; [|now intros [= _ <-]].
  destruct (setitem_time _ _ _ _); simpl; [|discriminate].
  now intros [= _ <-].
Qed.

(** The end lock keeps the shape of the block and leaves every slot
    before the last [end_t_fix] untouched. *)
Lemma end_lock_below img B C H W total end_samples locked k :
  end_lock img B C H W total end_samples = Ok (locked, k) ->
  shape locked = shape img
  /\ forall b c t h w,
       (Z.of_nat t < Z.of_nat (dimT (shape img)) - k)%Z ->
       at5 locked b c t h w = at5 img b c t h w.
Proof.
  unfold end_lock.
  destruct end_samples as [e|]; [|now intros [= <- <-]].
  destruct (getitem_samples e) as [x|]; simpl; [|discriminate].
  destruct (_ && _ && _); [|now intros [= <- <-]].
  set (m := Z.min _ total).
  destruct (Z.ltb_spec 0 m) as [Hm|Hm]; [|now intros [= <- <-]].
  unfold setitem_time. destruct (broadcastable _ _); simpl; [|discriminate].
  intros [= <- <-]. split; [reflexivity|].
  intros b c t h w Ht. simpl.
  rewrite slice_lo_last by exact Hm.
  destruct (Nat.leb_spec
              (dimT (shape img) - Z.to_nat (Z.min m (Z.of_nat (dimT (shape img))))) t);
    [lia | reflexivity].
Qed.

(** An end block with the anchor's channel, height and width, and a batch
    that is the working batch or 1, overwrites the last
    [min T_end total_latents] slots with its own last slots. *)
Lemma end_lock_overwrite img B C H W total e x :
  getitem_samples e = Ok x ->
  dimC (shape x) = C -> dimH (shape x) = H -> dimW (shape x) = W ->
  shape img = mkShape B C (Z.to_nat total) H W ->
  dimB (shape x) = B \/ dimB (shape x) = 1 ->
  exists locked,
    end_lock img B C H W total (Some e)
    = Ok (locked, Z.min (Z.of_nat (dimT (shape x))) total)
    /\ shape locked = shape img
    /\ forall b c t h w, in_range (shape img) b c t h w ->
         let k := Z.to_nat (Z.min (Z.of_nat (dimT (shape x))) total) in
         at5 locked b c t h w
         = if Z.to_nat total - k <=? t
           then at5 x (bcast_index (dimB (shape x)) b) c
                      (dimT (shape x) - k + (t - (Z.to_nat total - k))) h w
           else at5 img b c t h w.
Proof.
  intros Hx HC HH HW Himg HB.
  unfold end_lock. rewrite Hx. simpl.
  set (x' := if (dimB (shape x) =? 1) && (1 <? B) then repeat_batch x B else x).
  assert (Hx' : dimC (shape x') = C /\ dimH (shape x') = H /\ dimW (shape x') = W
                /\ dimT (shape x') = dimT (shape x)
                /\ (dimB (shape x') = B \/ dimB (shape x') = 1)
                /\ forall b c t h w, b < B ->
                     at5 x' (bcast_index (dimB (shape x')) b) c t h w
                     = at5 x (bcast_index (dimB (shape x)) b) c t h w).
  { unfold x'. destruct (Nat.eqb_spec (dimB (shape x)) 1) as [E1|E1]; simpl.
    - destruct (Nat.ltb_spec 1 B); simpl.
      + rewrite E1. repeat split; auto.
      + repeat split; auto.
    - repeat split; auto. }
  clearbody x'. destruct Hx' as (HC' & HH' & HW' & HT' & HB' & Hat).
  rewrite HC', HH', HW', !Nat.eqb_refl, HT'. simpl.
  remember (Z.min (Z.of_nat (dimT (shape x))) total) as m eqn:Em.
  assert (Hm1 : (m <= Z.of_nat (dimT (shape x)))%Z) by lia.
  assert (Hm2 : (m <= total)%Z) by lia.
  clear Em.
  destruct (Z.ltb_spec 0 m) as [Hm|Hm].
  - unfold setitem_time. rewrite Himg. simpl.
    rewrite !slice_hi_none, !slice_lo_last by exact Hm.
    rewrite HT'.
    replace (Z.min m (Z.of_nat (Z.to_nat total))) with m by lia.
    replace (Z.min m (Z.of_nat (dimT (shape x)))) with m by lia.
    assert (Hbc : broadcastable
              (with_T (shape x') (dimT (shape x) - (dimT (shape x) - Z.to_nat m)))
              (with_T (mkShape B C (Z.to_nat total) H W)
                      (Z.to_nat total - (Z.to_nat total - Z.to_nat m))) = true).
    { unfold broadcastable, bcast_ok. simpl. rewrite HC', HH', HW', !Nat.eqb_refl.
      simpl. rewrite !andb_true_r. apply andb_true_iff. split.
      - destruct HB' as [-> | ->]; [now rewrite Nat.eqb_refl | apply orb_true_r].
      - apply orb_true_iff. left. apply Nat.eqb_eq. lia. }
    rewrite Hbc. simpl. eexists. split; [reflexivity|]. split; [reflexivity|].
    intros b c t h w (Hb & Hc & Ht & Hh & Hw). simpl in *.
    destruct (Nat.leb_spec (Z.to_nat total - Z.to_nat m) t); simpl.
    + destruct (Nat.ltb_spec t (Z.to_nat total)); [|lia].
      rewrite HC', HH', HW'.
      assert (Hi : forall n i, i < n -> bcast_index n i = i).
      { intros n i Hi. unfold bcast_index. destruct (Nat.eqb_spec n 1); lia. }
      rewrite (Hi C c), (Hi H h), (Hi W w) by assumption.
      rewrite (Hi (dimT (shape x) - (dimT (shape x) - Z.to_nat m))) by lia.
      apply Hat. exact Hb.
    + reflexivity.
  - exists img. split; [reflexivity|]. split; [reflexivity|].
    intros b c t h w (Hb & Hc & Ht & Hh & Hw). rewrite Himg in Ht. simpl in *.
    destruct (Nat.leb_spec (Z.to_nat total - Z.to_nat m) t); [lia | reflexivity].
Qed.

(** An end block with the anchor's channel, height and width whose batch
    is neither the working batch nor 1 makes the overwrite fail. *)
Lemma end_lock_batch_mismatch img B C H W total e x :
  getitem_samples e = Ok x ->
  dimC (shape x) = C -> dimH (shape x) = H -> dimW (shape x) = W ->
  dimB (shape img) = B ->
  dimB (shape x) <> B -> dimB (shape x) <> 1 ->
  1 <= dimT (shape x) -> (1 <= total)%Z ->
  end_lock img B C H W total (Some e) = Raise (RuntimeError OpCopy).
Proof.
  intros Hx HC HH HW HBi HB H1 HT Htot.
  unfold end_lock. rewrite Hx. simpl.
  destruct (Nat.eqb_spec (dimB (shape x)) 1) as [E|_]; [contradiction|]. simpl.
  rewrite HC, HH, HW, !Nat.eqb_refl. simpl.
  destruct (Z.ltb_spec 0 (Z.min (Z.of_nat (dimT (shape x))) total)); [|lia].
  unfold setitem_time, broadcastable, bcast_ok. simpl.
  destruct (Nat.eqb_spec (dimB (shape x)) (dimB (shape img))); [congruence|].
  destruct (Nat.eqb_spec (dimB (shape x)) 1); [contradiction|]. reflexivity.
Qed.
End EndLock.

(** ** SegmentLatentAssembler as a whole *)

Section Assembler.
Context {elem : Type} {DT : Dtype elem}.
Variable process_out : Tensor elem -> Tensor elem.
Import WanImageToVideoSVIProFLF.

Implicit Types (anchor base padded : Tensor elem).
Implicit Types (prev_samples anchor_samples end_samples
                : option (gmap string (pyval elem))).

(** A successful run went through every step. *)
Lemma assemble_inv length prev_samples anchor_samples mlc end_samples a :
  assemble process_out length prev_samples anchor_samples mlc end_samples = Ok a ->
  exists anchor base padded,
    let s := shape anchor in
    let total := total_latents_of length in
    subscript_samples anchor_samples = Ok anchor
    /\ base_block anchor prev_samples mlc = Ok base
    /\ pad_block process_out base (dimB s) (dimC s) (dimH s) (dimW s) total = Ok padded
    /\ end_lock padded (dimB s) (dimC s) (dimH s) (dimW s) total end_samples
       = Ok (image_cond_latent a, end_t_fix a)
    /\ full (dimB s) 16 total (dimH s) (dimW s) zero_val = Ok (empty_latent a)
    /\ concat_mask total (dimH s) (dimW s) (end_t_fix a) = Ok (mask a).
Proof.
  unfold assemble. intros Ha.
  destruct (subscript_samples anchor_samples) as [anchor|] eqn:E1;
    simpl in Ha; [|discriminate].
  destruct (base_block anchor prev_samples mlc) as [base|] eqn:E2;
    simpl in Ha; [|discriminate].
  destruct (pad_block _ base _ _ _ _ _) as [padded|] eqn:E3;
    simpl in Ha; [|discriminate].
  destruct (end_lock padded _ _ _ _ _ _) as [[locked k]|] eqn:E4;
    simpl in Ha; [|discriminate].
  destruct (full _ 16 _ _ _ _) as [empty|] eqn:E5; simpl in Ha; [|discriminate].
  destruct (concat_mask _ _ _ _) as [m|] eqn:E6; simpl in Ha; [|discriminate].
  injection Ha as <-. exists anchor, base, padded. simpl. auto 10.
Qed.

(** Conversely, the steps compose. *)
Lemma assemble_steps length prev_samples anchor_samples mlc end_samples
    anchor base padded locked k empty m :
  let s := shape anchor in
  let total := total_latents_of length in
  subscript_samples anchor_samples = Ok anchor ->
  base_block anchor prev_samples mlc = Ok base ->
  pad_block process_out base (dimB s) (dimC s) (dimH s) (dimW s) total = Ok padded ->
  end_lock padded (dimB s) (dimC s) (dimH s) (dimW s) total end_samples
    = Ok (locked, k) ->
  full (dimB s) 16 total (dimH s) (dimW s) zero_val = Ok empty ->
  concat_mask total (dimH s) (dimW s) k = Ok m ->
  assemble process_out length prev_samples anchor_samples mlc end_samples
  = Ok (mkAssembled locked k empty m).
Proof.
  intros s total Ha Hb Hp He Hf Hm. unfold assemble.
  rewrite Ha. simpl. rewrite Hb. simpl. fold s total. rewrite Hp. simpl.
  rewrite He. simpl. rewrite Hf. simpl. rewrite Hm. reflexivity.
Qed.

(** [execute] fails exactly when steps 1 to 5 fail, with the same
    exception, and otherwise attaches the block and the mask to every
    entry of both conditionings. *)
Lemma execute_assemble positive negative length prev_samples anchor_samples mlc
    end_samples :
  match assemble process_out length prev_samples anchor_samples mlc end_samples with
  | Raise err =>
      execute process_out positive negative length prev_samples anchor_samples mlc
        end_samples = Raise err
  | Ok a =>
      exists out,
        execute process_out positive negative length prev_samples anchor_samples mlc
          end_samples = Ok out
        /\ out_latent out !! "samples" = Some (PTensor (empty_latent a))
        /\ Forall (fun t : cond_entry elem =>
                     t.2 !! "concat_latent_image" = Some (PTensor (image_cond_latent a))
                     /\ t.2 !! "concat_mask" = Some (PTensor (mask a)))
                  (out_positive out ++ out_negative out)
  end.
Proof.
  unfold execute.
  destruct (assemble _ _ _ _ _ _) as [a|err]; simpl; [|reflexivity].
  eexists. split; [reflexivity|]. simpl. split; [apply lookup_singleton_eq|].
  unfold conditioning_set_values. rewrite <- fmap_app.
  apply Forall_fmap, Forall_forall. intros t _. simpl. split.
  - apply lookup_union_Some_l, lookup_insert_eq.
  - apply lookup_union_Some_l. rewrite lookup_insert_ne by discriminate.
    apply lookup_singleton_eq.
Qed.

Lemma base_block_ok anchor prev_samples mlc :
  shares_shape anchor prev_samples ->
  exists base, base_block anchor prev_samples mlc = Ok base.
Proof.
  unfold base_block. destruct prev_samples as [prev|]; [|eauto].
  intros (x & -> & Hsame). simpl.
  destruct (mlc =? 0)%Z; [eauto|].
  destruct (0 <? _)%Z; [|eauto].
  rewrite cat_time_ok by (now rewrite narrow_time_shape). eauto.
Qed.
End Assembler.

Section AssemblerShapes.
Context {elem : Type} {DT : Dtype elem}.
Variable process_out : Tensor elem -> Tensor elem.
Hypothesis process_out_shape : forall x, shape (process_out x) = shape x.
Import WanImageToVideoSVIProFLF.

Implicit Types (anchor base padded : Tensor elem).
Implicit Types (prev_samples anchor_samples end_samples
                : option (gmap string (pyval elem))).

Lemma concat_mask_ok total H W k :
  (0 <= total)%Z -> exists m : Tensor elem, concat_mask total H W k = Ok m.
Proof.
  intros Hpos. unfold concat_mask. rewrite full_ok by exact Hpos. simpl. eauto.
Qed.

(** Steps 1 and 2 on the anchor's dimensions: the padded block has shape
    [(B, C, total_latents, H, W)]. *)
Lemma padded_shape anchor base prev_samples mlc total :
  base_block anchor prev_samples mlc = Ok base ->
  (0 <= total)%Z ->
  let s := shape anchor in
  exists padded,
    pad_block process_out base (dimB s) (dimC s) (dimH s) (dimW s) total = Ok padded
    /\ shape padded = mkShape (dimB s) (dimC s) (Z.to_nat total) (dimH s) (dimW s).
Proof.
  intros Hb Hpos. cbv zeta.
  apply base_block_shape in Hb as [Hsame _].
  apply same_BCHW_spec in Hsame as (-> & -> & -> & ->).
  apply pad_block_shape; assumption.
Qed.

(** Shapes of the results of a successful run. *)
Lemma assemble_shapes length prev_samples anchor_samples mlc end_samples anchor a :
  subscript_samples anchor_samples = Ok anchor ->
  assemble process_out length prev_samples anchor_samples mlc end_samples = Ok a ->
  let s := shape anchor in
  let total := total_latents_of length in
  (0 <= total)%Z
  /\ shape (image_cond_latent a)
     = mkShape (dimB s) (dimC s) (Z.to_nat total) (dimH s) (dimW s)
  /\ shape (empty_latent a) = mkShape (dimB s) 16 (Z.to_nat total) (dimH s) (dimW s)
  /\ shape (mask a) = mkShape 1 1 (Z.to_nat total) (dimH s) (dimW s).
Proof.
  intros Hanchor Ha. cbv zeta.
  apply assemble_inv in Ha as (anchor' & base & padded & Ha' & Hb & Hp & He & Hf & Hm).
  cbv zeta in *. rewrite Hanchor in Ha'. injection Ha' as <-.
  apply full_inv in Hf as [Hpos Hf].
  destruct (padded_shape _ _ _ _ _ Hb Hpos) as (padded' & Hp' & Hs).
  cbv zeta in Hp'. rewrite Hp in Hp'. injection Hp' as <-.
  apply end_lock_below in He as [Hl _].
  apply concat_mask_spec in Hm as (_ & Hms & _).
  split; [exact Hpos|]. split; [congruence|]. split; [now rewrite Hf | exact Hms].
Qed.

(** C3. For [length >= 1] and input blocks that share the anchor's
    [(B, C, H, W)], the run succeeds, the block attached to every
    conditioning entry as [concat_latent_image] has exactly
    [total_latents] temporal slots, whatever [T_anchor], [T_prev],
    [motion_latent_count] and [T_end] are, and the mask has as many. *)
Theorem assembled_length_is_total_latents positive negative length
    prev_samples anchor_samples mlc end_samples anchor :
  (1 <= length)%Z ->
  subscript_samples anchor_samples = Ok anchor ->
  shares_shape anchor prev_samples ->
  shares_shape anchor end_samples ->
  exists a out,
    assemble process_out length prev_samples anchor_samples mlc end_samples = Ok a
    /\ execute process_out positive negative length prev_samples anchor_samples mlc
         end_samples = Ok out
    /\ Forall (fun t : cond_entry elem =>
                 t.2 !! "concat_latent_image" = Some (PTensor (image_cond_latent a))
                 /\ t.2 !! "concat_mask" = Some (PTensor (mask a)))
              (out_positive out ++ out_negative out)
    /\ dimT (shape (image_cond_latent a)) = Z.to_nat (total_latents_of length)
    /\ dimT (shape (mask a)) = dimT (shape (image_cond_latent a)).
Proof.
  intros Hlen Hanchor Hprev Hend.
  assert (Htot : (1 <= total_latents_of length)%Z).
  { unfold total_latents_of. pose proof (Z.mul_succ_div_gt (length - 1) 4). lia. }
  destruct (base_block_ok anchor prev_samples mlc Hprev) as [base Hb].
  destruct (padded_shape _ _ _ _ (total_latents_of length) Hb ltac:(lia))
    as (padded & Hp & Hps).
  cbv zeta in Hp.
  assert (He : exists locked k,
             end_lock padded (dimB (shape anchor)) (dimC (shape anchor))
               (dimH (shape anchor)) (dimW (shape anchor)) (total_latents_of length)
               end_samples = Ok (locked, k)).
  { destruct end_samples as [e|]; [|simpl; eauto].
    destruct Hend as (x & Hx & Hsame).
    apply same_BCHW_spec in Hsame as (HB & HC & HH & HW).
    destruct (end_lock_overwrite padded _ _ _ _ _ e x Hx
                (eq_sym HC) (eq_sym HH) (eq_sym HW) Hps (or_introl (eq_sym HB)))
      as (locked & Hl & _).
    eauto. }
  destruct He as (locked & k & He).
  destruct (concat_mask_ok (total_latents_of length) (dimH (shape anchor))
              (dimW (shape anchor)) k ltac:(lia)) as [m Hm].
  assert (Hf : (0 <= total_latents_of length)%Z) by lia.
  pose proof (assemble_steps process_out length prev_samples anchor_samples mlc
                end_samples anchor base padded locked k _ m Hanchor Hb Hp He
                (full_ok _ 16 _ _ _ zero_val Hf) Hm) as Hasm.
  pose proof (execute_assemble process_out positive negative length prev_samples
                anchor_samples mlc end_samples) as Hexe.
  rewrite Hasm in Hexe. destruct Hexe as (out & Hout & _ & Hall).
  destruct (assemble_shapes _ _ _ _ _ _ _ Hanchor Hasm) as (_ & Hs1 & _ & Hs2).
  eexists. exists out. split; [exact Hasm|]. split; [exact Hout|].
  split; [exact Hall|]. rewrite Hs1, Hs2. split; reflexivity.
Qed.
End AssemblerShapes.

Section AssemblerClaims.
Context {elem : Type} {DT : Dtype elem}.
Variable process_out : Tensor elem -> Tensor elem.
Hypothesis process_out_shape : forall x, shape (process_out x) = shape x.
Import WanImageToVideoSVIProFLF.

Implicit Types (anchor base padded : Tensor elem).
Implicit Types (prev_samples anchor_samples end_samples
                : option (gmap string (pyval elem))).

#[local] Arguments end_lock : simpl never.

Lemma spec_locked_tail_le C H W total end_samples :
  (0 <= total)%Z ->
  (spec_locked_tail (elem:=elem) C H W total end_samples <= total)%Z.
Proof.
  intros Hpos. unfold spec_locked_tail.
  destruct end_samples as [e|]; [|exact Hpos].
  destruct (getitem_samples e); [|exact Hpos].
  destruct (_ && _ && _); lia.
Qed.

(** C2. For [length >= 1], the mask of a run has shape
    [(1, 1, total_latents, H, W)]; it is zero at slot 0 and at the last
    [end_t_fix] slots, where [end_t_fix = min T_end total_latents] for an
    end block with the anchor's channel, height and width and 0
    otherwise, and one at every other slot. *)
Theorem mask_locks_first_and_tail length prev_samples anchor_samples mlc
    end_samples anchor a :
  (1 <= length)%Z ->
  subscript_samples anchor_samples = Ok anchor ->
  assemble process_out length prev_samples anchor_samples mlc end_samples = Ok a ->
  let total := total_latents_of length in
  let locked := spec_locked_tail (dimC (shape anchor)) (dimH (shape anchor))
                  (dimW (shape anchor)) total end_samples in
  shape (mask a) = mkShape 1 1 (Z.to_nat total) (dimH (shape anchor)) (dimW (shape anchor))
  /\ forall b c t h w, in_range (shape (mask a)) b c t h w ->
       at5 (mask a) b c t h w
       = if (t =? 0) || (Z.to_nat total - Z.to_nat locked <=? t)
         then zero_val else one_val.
Proof.
  intros _ Hanchor Ha. cbv zeta.
  apply assemble_inv in Ha as (anchor' & base & padded & Ha' & _ & _ & He & _ & Hm).
  cbv zeta in *. rewrite Hanchor in Ha'. injection Ha' as <-.
  apply end_lock_fix in He.
  apply concat_mask_spec in Hm as (Hpos & Hs & Hat).
  split; [exact Hs|].
  intros b c t h w (_ & _ & Ht & _). rewrite Hs in Ht. simpl in Ht.
  rewrite (Hat b c t h w Ht), He.
  pose proof (spec_locked_tail_le (dimC (shape anchor)) (dimH (shape anchor))
                (dimW (shape anchor)) _ end_samples Hpos).
  now rewrite Z.min_l.
Qed.

(** C6. An end block whose channel, height or width differs from the
    anchor's is skipped without an error of its own: [end_t_fix] is 0,
    the run gives what it gives without [end_samples], and the mask locks
    slot 0 only. *)
Theorem mismatched_end_block_is_ignored positive negative length prev_samples
    anchor_samples mlc e x anchor :
  subscript_samples anchor_samples = Ok anchor ->
  getitem_samples e = Ok x ->
  dimC (shape x) <> dimC (shape anchor) \/ dimH (shape x) <> dimH (shape anchor)
  \/ dimW (shape x) <> dimW (shape anchor) ->
  (forall padded total,
      end_lock padded (dimB (shape anchor)) (dimC (shape anchor))
        (dimH (shape anchor)) (dimW (shape anchor)) total (Some e)
      = Ok (padded, 0%Z))
  /\ assemble process_out length prev_samples anchor_samples mlc (Some e)
     = assemble process_out length prev_samples anchor_samples mlc None
  /\ execute process_out positive negative length prev_samples anchor_samples mlc
       (Some e)
     = execute process_out positive negative length prev_samples anchor_samples mlc
         None
  /\ forall a,
       assemble process_out length prev_samples anchor_samples mlc (Some e) = Ok a ->
       end_t_fix a = 0%Z
       /\ forall b c t h w, in_range (shape (mask a)) b c t h w ->
            at5 (mask a) b c t h w = if t =? 0 then zero_val else one_val.
Proof.
  intros Hanchor Hx Hne.
  assert (Hskip : forall padded total,
             end_lock padded (dimB (shape anchor)) (dimC (shape anchor))
               (dimH (shape anchor)) (dimW (shape anchor)) total (Some e)
             = Ok (padded, 0%Z))
    by (intros; now apply (end_lock_mismatch _ _ _ _ _ _ e x)).
  assert (Heq : assemble process_out length prev_samples anchor_samples mlc (Some e)
                = assemble process_out length prev_samples anchor_samples mlc None).
  { unfold assemble. rewrite Hanchor. simpl.
    destruct (base_block anchor prev_samples mlc) as [base|]; simpl; [|reflexivity].
    destruct (pad_block _ _ _ _ _ _ _) as [padded|]; simpl; [|reflexivity].
    now rewrite Hskip. }
  split; [exact Hskip|]. split; [exact Heq|].
  split; [unfold execute; now rewrite Heq|].
  intros a Ha.
  apply assemble_inv in Ha as (anchor' & base & padded & Ha' & _ & _ & He & _ & Hm).
  cbv zeta in *. rewrite Hanchor in Ha'. injection Ha' as <-.
  rewrite Hskip in He. injection He as _ He. rewrite <- He in *.
  split; [reflexivity|].
  apply concat_mask_spec in Hm as (Hpos & Hs & Hat).
  intros b c t h w (_ & _ & Ht & _). rewrite Hs in Ht. simpl in Ht.
  rewrite (Hat b c t h w Ht).
  replace (Z.to_nat (Z.min 0 (total_latents_of length))) with 0 by lia.
  destruct (Nat.eqb_spec t 0); [reflexivity|].
  destruct (Nat.leb_spec (Z.to_nat (total_latents_of length) - 0) t); [lia | reflexivity].
Qed.
End AssemblerClaims.

Section AssemblerContent.
Context {elem : Type} {DT : Dtype elem}.
Variable process_out : Tensor elem -> Tensor elem.
Hypothesis process_out_shape : forall x, shape (process_out x) = shape x.
Import WanImageToVideoSVIProFLF.

Implicit Types (anchor base padded : Tensor elem).
Implicit Types (prev_samples anchor_samples end_samples
                : option (gmap string (pyval elem))).

#[local] Arguments end_lock : simpl never.

(** C7. When the base block is shorter than [total_latents], the
    [total_latents - T_base] slots appended after it are the slots of
    [process_out] applied to an all-zero block, not the zero block
    itself; they stay so in the result wherever the end lock does not
    overwrite them. *)
Theorem padding_is_processed_zeros length prev_samples anchor_samples mlc
    end_samples anchor base a :
  subscript_samples anchor_samples = Ok anchor ->
  base_block anchor prev_samples mlc = Ok base ->
  assemble process_out length prev_samples anchor_samples mlc end_samples = Ok a ->
  (Z.of_nat (dimT (shape base)) < total_latents_of length)%Z ->
  let s := shape anchor in
  let total := total_latents_of length in
  let T_base := dimT (shape base) in
  exists zeros padded,
    full (dimB s) (dimC s) (total - Z.of_nat T_base) (dimH s) (dimW s) zero_val
      = Ok zeros
    /\ dimT (shape zeros) = Z.to_nat total - T_base
    /\ (forall b c t h w, at5 zeros b c t h w = zero_val)
    /\ pad_block process_out base (dimB s) (dimC s) (dimH s) (dimW s) total = Ok padded
    /\ dimT (shape padded) = Z.to_nat total
    /\ (forall b c t h w, t < T_base -> at5 padded b c t h w = at5 base b c t h w)
    /\ (forall b c t h w, T_base <= t ->
          at5 padded b c t h w = at5 (process_out zeros) b c (t - T_base) h w)
    /\ (forall b c t h w, T_base <= t -> (Z.of_nat t < total - end_t_fix a)%Z ->
          at5 (image_cond_latent a) b c t h w
          = at5 (process_out zeros) b c (t - T_base) h w).
Proof.
  intros Hanchor Hb Ha Hlt. cbv zeta.
  apply assemble_inv in Ha as (anchor' & base' & padded & Ha' & Hb' & Hp & He & _ & _).
  cbv zeta in *. rewrite Hanchor in Ha'. injection Ha' as <-.
  rewrite Hb in Hb'. injection Hb' as <-.
  destruct (base_block_shape _ _ _ _ Hb) as [Hsame _].
  apply same_BCHW_spec in Hsame as (HB & HC & HH & HW).
  rewrite HB, HC, HH, HW in *.
  destruct (pad_block_pads process_out base _ process_out_shape Hlt) as [Hfull Hpad].
  cbv zeta in Hfull, Hpad. rewrite Hpad in Hp. injection Hp as <-.
  eexists. eexists. split; [exact Hfull|]. split; [simpl; lia|].
  split; [reflexivity|]. split; [exact Hpad|]. split; [simpl; lia|].
  split; [|split].
  - intros b c t h w Ht. simpl. destruct (Nat.ltb_spec t (dimT (shape base))); [reflexivity|lia].
  - intros b c t h w Ht. simpl. destruct (Nat.ltb_spec t (dimT (shape base))); [lia|reflexivity].
  - intros b c t h w Ht Hk.
    apply end_lock_below in He as [_ He]. rewrite He by (simpl; lia).
    simpl. destruct (Nat.ltb_spec t (dimT (shape base))); [lia|reflexivity].
Qed.

(** C10. With an end block that has the anchor's channel, height and
    width and at least [total_latents] slots, every slot of the assembled
    block, slot 0 included, is the corresponding one of the last
    [total_latents] slots of the end block (broadcast along the batch when
    the end block has batch 1), and the mask is zero everywhere. *)
Theorem long_end_block_replaces_everything length prev_samples anchor_samples mlc
    e x anchor a :
  subscript_samples anchor_samples = Ok anchor ->
  getitem_samples e = Ok x ->
  dimC (shape x) = dimC (shape anchor) ->
  dimH (shape x) = dimH (shape anchor) ->
  dimW (shape x) = dimW (shape anchor) ->
  (total_latents_of length <= Z.of_nat (dimT (shape x)))%Z ->
  assemble process_out length prev_samples anchor_samples mlc (Some e) = Ok a ->
  let s := shape anchor in
  let total := Z.to_nat (total_latents_of length) in
  shape (image_cond_latent a) = mkShape (dimB s) (dimC s) total (dimH s) (dimW s)
  /\ end_t_fix a = total_latents_of length
  /\ (forall b c t h w, in_range (shape (image_cond_latent a)) b c t h w ->
        at5 (image_cond_latent a) b c t h w
        = at5 x (bcast_index (dimB (shape x)) b) c (dimT (shape x) - total + t) h w)
  /\ (forall b c t h w, in_range (shape (mask a)) b c t h w ->
        at5 (mask a) b c t h w = zero_val).
Proof.
  intros Hanchor Hx HC HH HW HT Ha. cbv zeta.
  destruct (assemble_shapes process_out process_out_shape _ _ _ _ _ _ _ Hanchor Ha)
    as (Hpos & Hsi & _ & Hsm).
  cbv zeta in *.
  apply assemble_inv in Ha as (anchor' & base & padded & Ha' & Hb & Hp & He & _ & Hm).
  cbv zeta in *. rewrite Hanchor in Ha'. injection Ha' as <-.
  destruct (padded_shape process_out process_out_shape _ _ _ _ _ Hb Hpos)
    as (padded' & Hp' & Hps).
  cbv zeta in Hp'. rewrite Hp in Hp'. injection Hp' as <-.
  pose proof (end_lock_fix _ _ _ _ _ _ _ _ _ He) as Hk.
  unfold spec_locked_tail in Hk. rewrite Hx, HC, HH, HW, !Nat.eqb_refl in Hk.
  simpl in Hk. rewrite Z.min_r in Hk by exact HT.
  split; [exact Hsi|]. split; [exact Hk|]. split.
  - intros b c t h w Hin. rewrite Hsi in Hin.
    destruct (Nat.eq_dec (Z.to_nat (total_latents_of length)) 0) as [E0|E0];
      [destruct Hin as (_ & _ & Ht & _); simpl in Ht; lia|].
    destruct (Nat.eq_dec (dimB (shape x)) (dimB (shape anchor))) as [EB|EB];
      [|destruct (Nat.eq_dec (dimB (shape x)) 1) as [E1|E1]].
    + destruct (end_lock_overwrite padded _ _ _ _ _ e x Hx HC HH HW Hps (or_introl EB))
        as (locked & Hl & _ & Hat).
      rewrite He in Hl. injection Hl as <-.
      rewrite Hat by (now rewrite Hps). cbv zeta.
      rewrite Z.min_r by exact HT.
      destruct (Nat.leb_spec (Z.to_nat (total_latents_of length)
                              - Z.to_nat (total_latents_of length)) t); [|lia].
      f_equal. lia.
    + destruct (end_lock_overwrite padded _ _ _ _ _ e x Hx HC HH HW Hps (or_intror E1))
        as (locked & Hl & _ & Hat).
      rewrite He in Hl. injection Hl as <-.
      rewrite Hat by (now rewrite Hps). cbv zeta.
      rewrite Z.min_r by exact HT.
      destruct (Nat.leb_spec (Z.to_nat (total_latents_of length)
                              - Z.to_nat (total_latents_of length)) t); [|lia].
      f_equal. lia.
    + rewrite (end_lock_batch_mismatch padded _ _ _ _ _ e x Hx HC HH HW) in He;
        [discriminate | now rewrite Hps | exact EB | exact E1 | lia | lia].
  - apply concat_mask_spec in Hm as (_ & _ & Hat).
    intros b c t h w (_ & _ & Ht & _). rewrite Hsm in Ht. simpl in Ht.
    rewrite (Hat b c t h w Ht), Hk, Z.min_id.
    destruct (Nat.eqb_spec t 0); [reflexivity|].
    destruct (Nat.leb_spec (Z.to_nat (total_latents_of length)
                            - Z.to_nat (total_latents_of length)) t); [reflexivity | lia].
Qed.
End AssemblerContent.

(** ** Failures of the assembler *)

Section AssemblerFailures.
Context {elem : Type} {DT : Dtype elem}.
Variable process_out : Tensor elem -> Tensor elem.
Hypothesis process_out_shape : forall x, shape (process_out x) = shape x.
Import WanImageToVideoSVIProFLF.

Implicit Types (anchor base padded : Tensor elem).
Implicit Types (prev_samples anchor_samples end_samples
                : option (gmap string (pyval elem))).

#[local] Arguments end_lock : simpl never.
#[local] Arguments base_block : simpl never.
#[local] Arguments pad_block : simpl never.

Lemma lacks_samples_inv (o : option (gmap string (pyval elem))) :
  lacks_samples o = true -> exists d, o = Some d /\ getitem_samples d = Raise KeyError.
Proof.
  destruct o as [d|]; [|discriminate]. simpl. intros Hd.
  apply bool_decide_eq_true in Hd. exists d. split; [reflexivity|].
  unfold getitem_samples. now rewrite Hd.
Qed.

(** With the end block's batch neither the working batch nor 1, the run
    stops at the overwrite of the trailing slots. *)
Lemma assemble_batch_mismatch length prev_samples anchor_samples mlc e x anchor base :
  subscript_samples anchor_samples = Ok anchor ->
  base_block anchor prev_samples mlc = Ok base ->
  getitem_samples e = Ok x ->
  dimC (shape x) = dimC (shape anchor) ->
  dimH (shape x) = dimH (shape anchor) ->
  dimW (shape x) = dimW (shape anchor) ->
  dimB (shape x) <> dimB (shape anchor) -> dimB (shape x) <> 1 ->
  1 <= dimT (shape x) -> (1 <= total_latents_of length)%Z ->
  assemble process_out length prev_samples anchor_samples mlc (Some e)
  = Raise (RuntimeError OpCopy).
Proof.
  intros Hanchor Hb Hx HC HH HW HB H1 HT Htot.
  destruct (padded_shape process_out process_out_shape _ _ _ _
              (total_latents_of length) Hb ltac:(lia)) as (padded & Hp & Hps).
  cbv zeta in Hp.
  unfold assemble. rewrite Hanchor. simpl. rewrite Hb. simpl. rewrite Hp. simpl.
  rewrite (end_lock_batch_mismatch padded _ _ _ _ _ e x Hx HC HH HW);
    [reflexivity | now rewrite Hps | exact HB | exact H1 | exact HT | exact Htot].
Qed.

(** C8, as the code has it.  The run fails, with no fallback result,
    whenever [anchor_samples] is missing or a container that the run
    reads lacks the ["samples"] key: [anchor_samples], [prev_samples]
    when [motion_latent_count] is not 0, and [end_samples].  A missing
    anchor gives a [TypeError], an anchor without the key a [KeyError]. *)
Theorem unreadable_input_fails positive negative length prev_samples anchor_samples
    mlc end_samples :
  anchor_samples = None
  \/ lacks_samples anchor_samples = true
  \/ (lacks_samples prev_samples = true /\ mlc <> 0%Z)
  \/ lacks_samples end_samples = true ->
  exists err,
    execute process_out positive negative length prev_samples anchor_samples mlc
      end_samples = Raise err
    /\ (anchor_samples = None -> err = TypeError)
    /\ (lacks_samples anchor_samples = true -> err = KeyError).
Proof.
  intros Hbad.
  pose proof (execute_assemble process_out positive negative length prev_samples
                anchor_samples mlc end_samples) as Hexe.
  assert (Hasm : exists err,
             assemble process_out length prev_samples anchor_samples mlc end_samples
             = Raise err
             /\ (anchor_samples = None -> err = TypeError)
             /\ (lacks_samples anchor_samples = true -> err = KeyError)).
  { unfold assemble.
    destruct anchor_samples as [d|]; [|exists TypeError; simpl; auto; now split].
    simpl. destruct (getitem_samples d) as [anchor|err] eqn:Hd; simpl.
    - assert (Hnot : lacks_samples (Some d) = true -> False).
      { intros Hl. apply (lacks_samples_inv (Some d)) in Hl as (d' & [= <-] & Hd').
        congruence. }
      assert (Hgoal : forall P : exn -> Prop,
                 (exists err, P err) ->
                 exists err, P err /\ (Some d = None -> err = TypeError)
                             /\ (lacks_samples (Some d) = true -> err = KeyError)).
      { intros P [err Herr]. exists err. split; [exact Herr|].
        split; [discriminate | intros Hl; destruct (Hnot Hl)]. }
      apply (Hgoal (fun err => _ = Raise err)).
      destruct Hbad as [Hbad | [Hbad | [[Hbad Hmlc] | Hbad]]];
        [discriminate | destruct (Hnot Hbad) | |].
      + apply lacks_samples_inv in Hbad as (p & -> & Hp).
        unfold base_block. destruct (Z.eqb_spec mlc 0); [contradiction|].
        rewrite Hp. simpl. eauto.
      + apply lacks_samples_inv in Hbad as (e & -> & He).
        destruct (base_block anchor prev_samples mlc); simpl; [|eauto].
        destruct (pad_block _ _ _ _ _ _ _); simpl; [|eauto].
        unfold end_lock. rewrite He. simpl. eauto.
    - exists err. split; [reflexivity|]. split; [discriminate|].
      intros Hl. apply (lacks_samples_inv (Some d)) in Hl as (d' & [= <-] & Hd').
      congruence. }
  destruct Hasm as (err & Hasm & Hrest). rewrite Hasm in Hexe.
  exists err. split; [exact Hexe | exact Hrest].
Qed.
End AssemblerFailures.

(** ** The claims on concrete inputs *)

Lemma affine_out_shape (x : Tensor Z) : shape (affine_out x) = shape x.
Proof. reflexivity. Qed.

(** The scenario of the specification: anchor with one slot, previous block
    with three, two motion slots, 21 frames, no end block.  The assembled
    block has six slots (one anchor, two motion, three padding) and the
    mask is [0, 1, 1, 1, 1, 1]. *)
Example scenario_no_end :
  exists a,
    WanImageToVideoSVIProFLF.assemble affine_out 21 (Some (latent_of prev3))
      (Some (latent_of anchor1)) 2 None = Ok a
    /\ shape (WanImageToVideoSVIProFLF.image_cond_latent a) = mkShape 1 4 6 8 8
    /\ slots_at (WanImageToVideoSVIProFLF.image_cond_latent a) 0 1 0 0
       = [10; 51; 52; 8; 8; 8]%Z
    /\ slots_at (WanImageToVideoSVIProFLF.mask a) 0 0 0 0 = [0; 1; 1; 1; 1; 1]%Z
    /\ shape (WanImageToVideoSVIProFLF.empty_latent a) = mkShape 1 16 6 8 8.
Proof. eexists. split; [vm_compute; reflexivity|]. repeat split. Qed.

(** The trimmer on five slots: cutting 1, 4 or 10 leaves 4, 1 and 1. *)
Example cut_five_slots :
  let clip := latent_of (ramp (mkShape 1 4 5 8 8) 0) in
  samples_T (WanCutLastSlot.execute clip 1) = Some 4
  /\ samples_T (WanCutLastSlot.execute clip 4) = Some 1
  /\ samples_T (WanCutLastSlot.execute clip 10) = Some 1.
Proof. repeat split. Qed.

(** C9. There is an input whose end block has batch 2, against a working
    batch of 1, with the anchor's channel, height and width, one slot, and
    [total_latents = 2], on which the run raises at the overwrite of the
    trailing slots: only an end block of batch exactly 1 is repeated. *)
Theorem end_batch_mismatch_raises :
  exists (anchor end_block : Tensor Z) (length : Z),
    2 <= dimB (shape end_block)
    /\ dimB (shape end_block) <> dimB (shape anchor)
    /\ dimC (shape end_block) = dimC (shape anchor)
    /\ dimH (shape end_block) = dimH (shape anchor)
    /\ dimW (shape end_block) = dimW (shape anchor)
    /\ 1 <= dimT (shape end_block)
    /\ (1 <= WanImageToVideoSVIProFLF.total_latents_of length)%Z
    /\ WanImageToVideoSVIProFLF.execute affine_out [] [] length None
         (Some (latent_of anchor)) 1 (Some (latent_of end_block))
       = Raise (RuntimeError OpCopy).
Proof.
  exists anchor1, end_b2, 5%Z.
  split; [simpl; lia|]. split; [simpl; lia|].
  do 3 (split; [reflexivity|]). split; [simpl; lia|]. split; [now vm_compute|].
  pose proof (execute_assemble affine_out [] [] 5 None (Some (latent_of anchor1)) 1
                (Some (latent_of end_b2))) as Hexe.
  rewrite (assemble_batch_mismatch affine_out affine_out_shape 5 None
             (Some (latent_of anchor1)) 1 (latent_of end_b2) end_b2 anchor1 anchor1)
    in Hexe;
    [exact Hexe | try reflexivity; try (simpl; lia); try (now vm_compute) ..].
Qed.

(** C8 as stated fails: on the input above every container has its
    ["samples"] and the anchor is given, and yet the run fails. *)
Lemma failure_without_malformed_input :
  ~ (raises (WanImageToVideoSVIProFLF.execute affine_out [] [] 5 None
               (Some (latent_of anchor1)) 1 (Some (latent_of end_b2))) = true
     <-> spec_malformed None (Some (latent_of anchor1)) (Some (latent_of end_b2)) = true).
Proof.
  intros [Hfails _].
  assert (Hmal : spec_malformed (elem:=Z) None (Some (latent_of anchor1))
                   (Some (latent_of end_b2)) = false) by (vm_compute; reflexivity).
  rewrite Hmal in Hfails. discriminate Hfails. vm_compute. reflexivity.
Qed.

(** And in the other direction: a previous block without ["samples"] is
    never read when [motion_latent_count = 0], and the run succeeds. *)
Lemma malformed_input_without_failure :
  raises (WanImageToVideoSVIProFLF.execute affine_out [] [] 5 (Some ∅)
            (Some (latent_of anchor1)) 0 None) = false
  /\ spec_malformed (elem:=Z) (Some ∅) (Some (latent_of anchor1)) None = true.
Proof. split; vm_compute; reflexivity. Qed.

(** C2 on the scenario with an end block of two slots: the mask is
    [0, 1, 1, 1, 0, 0]. *)
Lemma mask_locks_first_and_tail_witness :
  match WanImageToVideoSVIProFLF.assemble affine_out 21 (Some (latent_of prev3))
          (Some (latent_of anchor1)) 2 (Some (latent_of end2)) with
  | Ok a =>
      shape (WanImageToVideoSVIProFLF.mask a) = mkShape 1 1 6 8 8
      /\ slots_at (WanImageToVideoSVIProFLF.mask a) 0 0 0 0 = [0; 1; 1; 1; 0; 0]%Z
  | Raise _ => False
  end.
Proof.
  destruct (WanImageToVideoSVIProFLF.assemble _ _ _ _ _ _) as [a|err] eqn:Ha;
    [|vm_compute in Ha; discriminate Ha].
  destruct (mask_locks_first_and_tail affine_out 21 (Some (latent_of prev3))
              (Some (latent_of anchor1)) 2 (Some (latent_of end2)) anchor1 a
              ltac:(lia) eq_refl Ha) as [Hs Hat].
  change (Z.to_nat (WanImageToVideoSVIProFLF.total_latents_of 21)) with 6 in *.
  split; [exact Hs|].
  unfold slots_at. rewrite Hs. simpl.
  rewrite !Hat by (rewrite Hs; unfold in_range; simpl; lia).
  reflexivity.
Defined.

(** C3 on the same scenario. *)
Lemma assembled_length_is_total_latents_witness :
  exists a out,
    WanImageToVideoSVIProFLF.assemble affine_out 21 (Some (latent_of prev3))
      (Some (latent_of anchor1)) 2 (Some (latent_of end2)) = Ok a
    /\ WanImageToVideoSVIProFLF.execute affine_out [(0%Z, ∅)] [(1%Z, ∅)] 21
         (Some (latent_of prev3)) (Some (latent_of anchor1)) 2 (Some (latent_of end2))
       = Ok out
    /\ Forall (fun t : cond_entry Z =>
                 t.2 !! "concat_latent_image"
                 = Some (PTensor (WanImageToVideoSVIProFLF.image_cond_latent a))
                 /\ t.2 !! "concat_mask" = Some (PTensor (WanImageToVideoSVIProFLF.mask a)))
              (out_positive out ++ out_negative out)
    /\ dimT (shape (WanImageToVideoSVIProFLF.image_cond_latent a)) = 6
    /\ dimT (shape (WanImageToVideoSVIProFLF.mask a))
       = dimT (shape (WanImageToVideoSVIProFLF.image_cond_latent a)).
Proof.
  apply (assembled_length_is_total_latents affine_out affine_out_shape
           [(0%Z, ∅)] [(1%Z, ∅)] 21 (Some (latent_of prev3)) (Some (latent_of anchor1)) 2
           (Some (latent_of end2)) anchor1).
  - lia.
  - reflexivity.
  - exists prev3. split; reflexivity.
  - exists end2. split; reflexivity.
Defined.

(** C6 with an end block of three channels against the anchor's four. *)
Lemma mismatched_end_block_is_ignored_witness :
  dimC (shape end_c3) <> dimC (shape anchor1)
  /\ WanImageToVideoSVIProFLF.execute affine_out [(0%Z, ∅)] [(1%Z, ∅)] 21
       (Some (latent_of prev3)) (Some (latent_of anchor1)) 2 (Some (latent_of end_c3))
     = WanImageToVideoSVIProFLF.execute affine_out [(0%Z, ∅)] [(1%Z, ∅)] 21
         (Some (latent_of prev3)) (Some (latent_of anchor1)) 2 None
  /\ forall a,
       WanImageToVideoSVIProFLF.assemble affine_out 21 (Some (latent_of prev3))
         (Some (latent_of anchor1)) 2 (Some (latent_of end_c3)) = Ok a ->
       WanImageToVideoSVIProFLF.end_t_fix a = 0%Z.
Proof.
  assert (Hne : dimC (shape end_c3) <> dimC (shape anchor1)) by (simpl; lia).
  destruct (mismatched_end_block_is_ignored affine_out [(0%Z, ∅)] [(1%Z, ∅)] 21
              (Some (latent_of prev3)) (Some (latent_of anchor1)) 2
              (latent_of end_c3) end_c3 anchor1 eq_refl eq_refl (or_introl Hne))
    as (_ & _ & Hexe & Hmask).
  split; [exact Hne|]. split; [exact Hexe|].
  intros a Ha. exact (proj1 (Hmask a Ha)).
Defined.

(** C7 on the scenario without an end block: slots 3 to 5 are the
    processed zeros, 8 on channel 1, not 0. *)
Lemma padding_is_processed_zeros_witness :
  match WanImageToVideoSVIProFLF.assemble affine_out 21 (Some (latent_of prev3))
          (Some (latent_of anchor1)) 2 None with
  | Ok a =>
      forall t, 3 <= t < 6 ->
        at5 (WanImageToVideoSVIProFLF.image_cond_latent a) 0 1 t 0 0 = 8%Z
  | Raise _ => False
  end.
Proof.
  destruct (WanImageToVideoSVIProFLF.assemble _ _ _ _ _ _) as [a|err] eqn:Ha;
    [|vm_compute in Ha; discriminate Ha].
  assert (Hk : WanImageToVideoSVIProFLF.end_t_fix a = 0%Z).
  { pose proof Ha as Ha'. vm_compute in Ha'. injection Ha' as <-. reflexivity. }
  destruct (WanImageToVideoSVIProFLF.base_block anchor1 (Some (latent_of prev3)) 2)
    as [base|] eqn:Hb; [|vm_compute in Hb; discriminate Hb].
  assert (HT : dimT (shape base) = 3).
  { pose proof Hb as Hb'. vm_compute in Hb'. injection Hb' as <-. reflexivity. }
  destruct (padding_is_processed_zeros affine_out affine_out_shape 21
              (Some (latent_of prev3)) (Some (latent_of anchor1)) 2 None anchor1 base a
              eq_refl Hb Ha)
    as (zeros & padded & Hz & _ & Hzero & _ & _ & _ & _ & Himg).
  { rewrite HT. now vm_compute. }
  intros t Ht. rewrite Himg by (rewrite ?HT, ?Hk; vm_compute Z.sub; lia).
  simpl. rewrite Hzero. reflexivity.
Defined.

(** C8, amended, on a run without anchor. *)
Lemma unreadable_input_fails_witness :
  exists err,
    WanImageToVideoSVIProFLF.execute affine_out [] [] 21 (Some (latent_of prev3))
      None 2 None = Raise err
    /\ err = TypeError.
Proof.
  destruct (unreadable_input_fails affine_out [] [] 21 (Some (latent_of prev3)) None 2
              None (or_introl eq_refl)) as (err & Hexe & Htype & _).
  exists err. split; [exact Hexe | exact (Htype eq_refl)].
Defined.

(** C10 with an end block of three slots and [total_latents = 3]: the
    anchor's value 10 is gone, and every slot is locked. *)
Lemma long_end_block_replaces_everything_witness :
  match WanImageToVideoSVIProFLF.assemble affine_out 9 None
          (Some (latent_of anchor1)) 1 (Some (latent_of end3)) with
  | Ok a =>
      slots_at (WanImageToVideoSVIProFLF.image_cond_latent a) 0 0 0 0
      = [90; 91; 92]%Z
      /\ slots_at (WanImageToVideoSVIProFLF.mask a) 0 0 0 0 = [0; 0; 0]%Z
  | Raise _ => False
  end.
Proof.
  destruct (WanImageToVideoSVIProFLF.assemble _ _ _ _ _ _) as [a|err] eqn:Ha;
    [|vm_compute in Ha; discriminate Ha].
  destruct (long_end_block_replaces_everything affine_out affine_out_shape 9 None
              (Some (latent_of anchor1)) 1 (latent_of end3) end3 anchor1 a
              eq_refl eq_refl eq_refl eq_refl eq_refl ltac:(now vm_compute) Ha)
    as (Hs & _ & Himg & Hmask).
  change (Z.to_nat (WanImageToVideoSVIProFLF.total_latents_of 9)) with 3 in *.
  assert (Hsm : shape (WanImageToVideoSVIProFLF.mask a) = mkShape 1 1 3 8 8).
  { pose proof Ha as Ha'. vm_compute in Ha'. injection Ha' as <-. reflexivity. }
  unfold slots_at. rewrite Hs, Hsm. simpl. split.
  - rewrite !Himg by (rewrite Hs; unfold in_range; simpl; lia). reflexivity.
  - rewrite !Hmask by (rewrite Hsm; unfold in_range; simpl; lia). reflexivity.
Defined.

(** * Further properties of the code *)

(** ** WanCutLastSlot *)

Lemma cut_schema_range (v : Z) :
  admits WanCutLastSlot.define_schema "slots_to_cut" v <-> (1 <= v <= 64)%Z.
Proof.
  unfold admits, WanCutLastSlot.define_schema. simpl. split.
  - intros (d & mn & mx & st & Hin & Hv).
    apply elem_of_cons in Hin as [Hin|Hin]; [discriminate|].
    apply elem_of_cons in Hin as [Hin|Hin]; [|now apply elem_of_nil in Hin].
    injection Hin as -> -> -> ->. exact Hv.
  - intros Hv. exists 1%Z, 1%Z, 64%Z, 1%Z. split; [|exact Hv].
    apply elem_of_cons. right. apply elem_of_cons. now left.
Qed.

Lemma cut_execute_ok {elem} (latents : gmap string (pyval elem)) x slots_to_cut :
  getitem_samples latents = Ok x ->
  WanCutLastSlot.execute latents slots_to_cut
  = Ok (<["samples" :=
           PTensor (narrow_time x None
                      (Some (Z.of_nat (dimT (shape x))
                             - WanCutLastSlot.cut_count (Z.of_nat (dimT (shape x)))
                                 slots_to_cut)%Z))]> latents).
Proof. intros Hx. unfold WanCutLastSlot.execute. now rewrite Hx. Qed.

(** X1. The trimmer returns a copy of the container in which only
    ["samples"] is replaced: every other field is the input's, and no field
    is added or lost. *)
Theorem cut_keeps_other_fields {elem} (latents : gmap string (pyval elem)) x
    slots_to_cut :
  getitem_samples latents = Ok x ->
  exists out x',
    WanCutLastSlot.execute latents slots_to_cut = Ok out
    /\ out !! "samples" = Some (PTensor x')
    /\ (forall k, k <> "samples" -> out !! k = latents !! k)
    /\ dom out = dom latents.
Proof.
  intros Hx. rewrite (cut_execute_ok _ _ _ Hx).
  eexists. eexists. split; [reflexivity|]. split; [apply lookup_insert_eq|].
  split.
  - intros k Hk. now rewrite lookup_insert_ne.
  - rewrite dom_insert_L.
    assert (Hin : "samples" ∈ dom latents).
    { apply elem_of_dom. unfold getitem_samples in Hx.
      destruct (latents !! "samples"); [eauto | discriminate]. }
    apply subseteq_union_1_L, singleton_subseteq_l, Hin.
Qed.

Lemma cut_keeps_other_fields_witness :
  exists out x',
    WanCutLastSlot.execute (<["noise_mask" := POpaque 7]> (latent_of clip5)) 2 = Ok out
    /\ out !! "samples" = Some (PTensor x')
    /\ out !! "noise_mask" = Some (POpaque 7).
Proof.
  assert (Hx : getitem_samples (<["noise_mask" := POpaque 7]> (latent_of clip5))
               = Ok clip5) by (vm_compute; reflexivity).
  destruct (cut_keeps_other_fields (<["noise_mask" := POpaque 7]> (latent_of clip5))
              clip5 2 Hx) as (out & x' & Hout & Hs & Hk & _).
  exists out, x'. split; [exact Hout|]. split; [exact Hs|].
  rewrite Hk by discriminate. reflexivity.
Defined.

(** X2. The trimmed tensor is a prefix of the input along time: it has
    the input's batch, channel, height and width, no more slots than the
    input, and its slot [t] is the input's slot [t]. *)
Theorem cut_keeps_leading_slots {elem} (latents : gmap string (pyval elem)) x
    slots_to_cut :
  getitem_samples latents = Ok x ->
  exists out x',
    WanCutLastSlot.execute latents slots_to_cut = Ok out
    /\ getitem_samples out = Ok x'
    /\ same_BCHW (shape x) (shape x') = true
    /\ dimT (shape x') <= dimT (shape x)
    /\ forall b c t h w, t < dimT (shape x') -> at5 x' b c t h w = at5 x b c t h w.
Proof.
  intros Hx. rewrite (cut_execute_ok _ _ _ Hx).
  eexists. eexists. split; [reflexivity|].
  split; [unfold getitem_samples; now rewrite lookup_insert_eq|].
  split; [apply same_BCHW_with_T|]. split.
  - simpl. pose proof (slice_hi_le (dimT (shape x))
      (Some (Z.of_nat (dimT (shape x))
             - WanCutLastSlot.cut_count (Z.of_nat (dimT (shape x))) slots_to_cut)%Z)).
    lia.
  - reflexivity.
Qed.

Lemma cut_keeps_leading_slots_witness :
  exists out x',
    WanCutLastSlot.execute (latent_of clip5) 2 = Ok out
    /\ getitem_samples out = Ok x'
    /\ slots_at x' 0 0 0 0 = [0; 1; 2]%Z.
Proof.
  destruct (cut_keeps_leading_slots (latent_of clip5) clip5 2 eq_refl)
    as (out & x' & Hout & Hx' & _ & _ & Hat).
  exists out, x'. split; [exact Hout|]. split; [exact Hx'|].
  assert (HT : dimT (shape x') = 3).
  { pose proof Hout as Ho. vm_compute in Ho. injection Ho as <-.
    vm_compute in Hx'. injection Hx' as <-. reflexivity. }
  unfold slots_at. rewrite HT. simpl. rewrite !Hat by lia. reflexivity.
Defined.

(** X3. For a count in the range the schema declares (1 to 64) and a
    clip of at least two slots, the result has exactly
    [max (T - slots_to_cut) 1] slots; one call never removes more than 64. *)
Theorem cut_length_in_schema_range {elem} (latents : gmap string (pyval elem)) x
    slots_to_cut :
  getitem_samples latents = Ok x ->
  admits WanCutLastSlot.define_schema "slots_to_cut" slots_to_cut ->
  2 <= dimT (shape x) ->
  samples_T (WanCutLastSlot.execute latents slots_to_cut)
  = Some (Z.to_nat (Z.max (Z.of_nat (dimT (shape x)) - slots_to_cut) 1))
  /\ dimT (shape x) - 64
     <= Z.to_nat (Z.max (Z.of_nat (dimT (shape x)) - slots_to_cut) 1).
Proof.
  intros Hx Hs HT. apply cut_schema_range in Hs.
  rewrite (cut_execute_samples_T _ _ _ Hx). unfold WanCutLastSlot.cut_count.
  split; [f_equal|]; lia.
Qed.

Lemma cut_length_in_schema_range_witness :
  samples_T (WanCutLastSlot.execute (latent_of clip70) 64) = Some 6
  /\ samples_T (WanCutLastSlot.execute (latent_of clip5) 64) = Some 1.
Proof.
  assert (H64 : admits WanCutLastSlot.define_schema "slots_to_cut" 64)
    by (apply cut_schema_range; lia).
  split.
  - exact (proj1 (cut_length_in_schema_range (latent_of clip70) clip70 64 eq_refl H64
                    ltac:(simpl; lia))).
  - exact (proj1 (cut_length_in_schema_range (latent_of clip5) clip5 64 eq_refl H64
                    ltac:(simpl; lia))).
Defined.

(** X4. Whatever the requested count, also zero or negative, the trimmer
    removes at least one slot of a non-empty clip, and exactly one when the
    count is at most 1; an empty clip stays empty. *)
Theorem cut_always_removes_a_slot {elem} (latents : gmap string (pyval elem)) x
    slots_to_cut :
  getitem_samples latents = Ok x ->
  exists T',
    samples_T (WanCutLastSlot.execute latents slots_to_cut) = Some T'
    /\ T' <= dimT (shape x) - 1
    /\ ((slots_to_cut <= 1)%Z -> T' = dimT (shape x) - 1).
Proof.
  intros Hx. eexists. split; [apply (cut_execute_samples_T _ _ _ Hx)|].
  unfold WanCutLastSlot.cut_count. split; [|intros Hs]; lia.
Qed.

Lemma cut_always_removes_a_slot_witness :
  samples_T (WanCutLastSlot.execute (latent_of clip5) (-3)) = Some 4.
Proof.
  destruct (cut_always_removes_a_slot (latent_of clip5) clip5 (-3) eq_refl)
    as (T' & HT' & _ & Hone).
  rewrite HT'. f_equal. apply Hone. lia.
Defined.


Lemma narrow_prefix_of_prefix {elem} (x : Tensor elem) (n m : Z) :
  (0 <= m <= n)%Z -> (n <= Z.of_nat (dimT (shape x)))%Z ->
  narrow_time (narrow_time x None (Some n)) None (Some m)
  = narrow_time x None (Some m).
Proof.
  intros Hm Hn. unfold narrow_time. cbn [shape at5 with_T dimT dimB dimC dimH dimW].
  rewrite !slice_lo_none, !slice_hi_first by lia.
  f_equal. f_equal. lia.
Qed.

(** X6. Trimming [a] slots and then [b] slots is trimming [a + b] slots
    at once, as long as one slot is left: [a + b <= T - 1]. *)
Theorem cut_twice_is_cut_of_sum {elem} (latents : gmap string (pyval elem)) x
    (a b : Z) :
  getitem_samples latents = Ok x ->
  (1 <= a)%Z -> (1 <= b)%Z -> (a + b <= Z.of_nat (dimT (shape x)) - 1)%Z ->
  WanCutLastSlot.execute latents a ≫= (fun out => WanCutLastSlot.execute out b)
  = WanCutLastSlot.execute latents (a + b).
Proof.
  intros Hx Ha Hb Hab.
  rewrite !(cut_execute_ok _ _ _ Hx). simpl.
  erewrite cut_execute_ok
    by (unfold getitem_samples; now rewrite lookup_insert_eq).
  rewrite insert_insert_eq. do 3 f_equal.
  set (T := Z.of_nat (dimT (shape x))) in *.
  assert (Ea : WanCutLastSlot.cut_count T a = a)
    by (unfold WanCutLastSlot.cut_count; lia).
  assert (Eab : WanCutLastSlot.cut_count T (a + b) = (a + b)%Z)
    by (unfold WanCutLastSlot.cut_count; lia).
  rewrite Ea, Eab.
  assert (ET : Z.of_nat (dimT (shape (narrow_time x None (Some (T - a)%Z))))
               = (T - a)%Z).
  { rewrite narrow_time_shape, slice_lo_none, slice_hi_first by lia.
    simpl. fold T. lia. }
  rewrite ET.
  assert (Eb : WanCutLastSlot.cut_count (T - a) b = b)
    by (unfold WanCutLastSlot.cut_count; lia).
  rewrite Eb, narrow_prefix_of_prefix by (fold T; lia).
  do 2 f_equal. lia.
Qed.

Lemma cut_twice_is_cut_of_sum_witness :
  WanCutLastSlot.execute (latent_of clip5) 1
    ≫= (fun out => WanCutLastSlot.execute out 2)
  = WanCutLastSlot.execute (latent_of clip5) 3.
Proof.
  apply (cut_twice_is_cut_of_sum (latent_of clip5) clip5 1 2 eq_refl);
    simpl; lia.
Defined.

(** ** WanImageToVideoSVIProFLF: slot count *)

(** X7. Four more frames are one more temporal slot, for every integer
    length and any number of steps; and a longer clip never has fewer
    slots. *)
Theorem total_latents_stride (l1 l2 k : Z) :
  (l1 <= l2)%Z ->
  (WanImageToVideoSVIProFLF.total_latents_of l1
   <= WanImageToVideoSVIProFLF.total_latents_of l2)%Z
  /\ WanImageToVideoSVIProFLF.total_latents_of (l1 + 4 * k)
     = (WanImageToVideoSVIProFLF.total_latents_of l1 + k)%Z.
Proof.
  intros Hle. unfold WanImageToVideoSVIProFLF.total_latents_of. split.
  - apply Z.add_le_mono_r, Z.div_le_mono; lia.
  - replace (l1 + 4 * k - 1)%Z with (l1 - 1 + k * 4)%Z by lia.
    rewrite Z.div_add by lia. lia.
Qed.

Lemma total_latents_stride_witness :
  (WanImageToVideoSVIProFLF.total_latents_of 41
   <= WanImageToVideoSVIProFLF.total_latents_of 81)%Z
  /\ WanImageToVideoSVIProFLF.total_latents_of (41 + 4 * 10)
     = (WanImageToVideoSVIProFLF.total_latents_of 41 + 10)%Z.
Proof. apply (total_latents_stride 41 81 10). lia. Defined.

(** ** WanImageToVideoSVIProFLF: content of the assembled block *)

Section AssembledContent.
Context {elem : Type} {DT : Dtype elem}.
Variable process_out : Tensor elem -> Tensor elem.
Hypothesis process_out_shape : forall x, shape (process_out x) = shape x.
Import WanImageToVideoSVIProFLF.

Implicit Types (anchor base padded : Tensor elem).
Implicit Types (prev_samples anchor_samples end_samples
                : option (gmap string (pyval elem))).

#[local] Arguments end_lock : simpl never.

(** Step 2 never touches the slots of the base block that it keeps. *)
Lemma pad_block_prefix base B C H W total padded :
  pad_block process_out base B C H W total = Ok padded ->
  forall b c t h w, t < dimT (shape base) ->
    at5 padded b c t h w = at5 base b c t h w.
Proof.
  unfold pad_block. intros Hp b c t h w Ht.
  assert (Hkeep : forall y : Tensor elem,
             at5 y b c t h w = at5 base b c t h w ->
             (if negb (Z.of_nat (dimT (shape y)) =? total)%Z
              then mret (narrow_time y None (Some total)) else mret y) = Ok padded ->
             at5 padded b c t h w = at5 base b c t h w).
  { intros y Hy Hc. destruct (negb _); injection Hc as <-; exact Hy. }
  destruct (0 <? Z.max (total - Z.of_nat (dimT (shape base))) 0)%Z.
  - destruct (full B C _ H W zero_val) as [padding|]; simpl in Hp; [|discriminate].
    unfold cat_time in Hp.
    destruct (same_BCHW _ _); simpl in Hp; [|discriminate].
    eapply Hkeep; [|exact Hp]. simpl.
    destruct (Nat.ltb_spec t (dimT (shape base))); [reflexivity | lia].
  - simpl in Hp. eapply Hkeep; [|exact Hp]. reflexivity.
Qed.

(** The base block starts with the anchor's slots; the slots after them
    are the last [min motion_latent_count T_prev] slots of the previous
    block. *)
Lemma base_block_content anchor prev_samples mlc base :
  base_block anchor prev_samples mlc = Ok base ->
  (forall b c t h w, t < dimT (shape anchor) ->
     at5 base b c t h w = at5 anchor b c t h w)
  /\ forall prev p, prev_samples = Some prev -> getitem_samples prev = Ok p ->
       mlc <> 0%Z ->
       let mc := Z.to_nat (Z.min mlc (Z.of_nat (dimT (shape p)))) in
       dimT (shape base) = dimT (shape anchor) + mc
       /\ forall b c i h w, i < mc ->
            at5 base b c (dimT (shape anchor) + i) h w
            = at5 p b c (dimT (shape p) - mc + i) h w.
Proof.
  unfold base_block. intros Hb.
  destruct prev_samples as [prev|];
    [|injection Hb as <-; split; [reflexivity | discriminate]].
  destruct (Z.eqb_spec mlc 0) as [E0|E0].
  { injection Hb as <-. split; [reflexivity|]. intros; contradiction. }
  destruct (getitem_samples prev) as [p|] eqn:Hp; simpl in Hb; [|discriminate].
  destruct (Z.ltb_spec 0 (Z.min mlc (Z.of_nat (dimT (shape p))))) as [Hm|Hm].
  - unfold cat_time in Hb. destruct (same_BCHW _ _); [|discriminate].
    injection Hb as <-. split.
    + intros b c t h w Ht. simpl.
      destruct (Nat.ltb_spec t (dimT (shape anchor))); [reflexivity | lia].
    + intros prev' p' [= <-] Hp' _. rewrite Hp in Hp'. injection Hp' as <-.
      cbv zeta. simpl.
      rewrite slice_hi_none, slice_lo_last by exact Hm.
      split; [lia|].
      intros b c i h w Hi.
      destruct (Nat.ltb_spec (dimT (shape anchor) + i) (dimT (shape anchor))); [lia|].
      f_equal. lia.
  - injection Hb as <-. split; [reflexivity|].
    intros prev' p' [= <-] Hp' _. rewrite Hp in Hp'. injection Hp' as <-.
    cbv zeta. split; [lia|]. intros; lia.
Qed.

(** X8. The latent handed to the sampler has shape
    [(B, 16, total_latents, H, W)], sixteen channels whatever the anchor's
    channel count, every entry zero, and is the only field of the output
    container. *)
Theorem empty_latent_is_zero positive negative length prev_samples anchor_samples
    mlc end_samples anchor out :
  subscript_samples anchor_samples = Ok anchor ->
  execute process_out positive negative length prev_samples anchor_samples mlc
    end_samples = Ok out ->
  exists empty,
    out_latent out = {["samples" := PTensor empty]}
    /\ shape empty = mkShape (dimB (shape anchor)) 16
                       (Z.to_nat (total_latents_of length))
                       (dimH (shape anchor)) (dimW (shape anchor))
    /\ forall b c t h w, at5 empty b c t h w = zero_val.
Proof.
  intros Hanchor Hexe. unfold execute in Hexe.
  destruct (assemble _ _ _ _ _ _) as [a|] eqn:Ha; simpl in Hexe; [|discriminate].
  injection Hexe as <-. simpl.
  apply assemble_inv in Ha as (anchor' & _ & _ & Ha' & _ & _ & _ & Hf & _).
  cbv zeta in *. rewrite Hanchor in Ha'. injection Ha' as <-.
  apply full_inv in Hf as [_ Hf].
  exists (empty_latent a). split; [reflexivity|]. rewrite Hf. split; reflexivity.
Qed.

(** Before the locked tail the assembled block is the padded block. *)
Lemma assembled_before_lock length prev_samples anchor_samples mlc end_samples
    anchor base a :
  subscript_samples anchor_samples = Ok anchor ->
  base_block anchor prev_samples mlc = Ok base ->
  assemble process_out length prev_samples anchor_samples mlc end_samples = Ok a ->
  exists padded,
    pad_block process_out base (dimB (shape anchor)) (dimC (shape anchor))
      (dimH (shape anchor)) (dimW (shape anchor)) (total_latents_of length) = Ok padded
    /\ forall b c t h w,
         (Z.of_nat t < total_latents_of length - end_t_fix a)%Z ->
         at5 (image_cond_latent a) b c t h w = at5 padded b c t h w.
Proof.
  intros Hanchor Hb Ha.
  destruct (assemble_shapes process_out process_out_shape _ _ _ _ _ _ _ Hanchor Ha)
    as (Hpos & _).
  apply assemble_inv in Ha as (anchor' & base' & padded & Ha' & Hb' & Hp & He & _ & _).
  cbv zeta in *. rewrite Hanchor in Ha'. injection Ha' as <-.
  rewrite Hb in Hb'. injection Hb' as <-.
  destruct (padded_shape process_out process_out_shape _ _ _ _ _ Hb Hpos)
    as (padded' & Hp' & Hps).
  cbv zeta in Hp'. rewrite Hp in Hp'. injection Hp' as <-.
  apply end_lock_below in He as [_ He].
  exists padded. split; [exact Hp|].
  intros b c t h w Hk. apply He. rewrite Hps. simpl. lia.
Qed.

(** X9. Padding or truncating and the end lock leave the head of the
    base block in place: every slot of the base block that lies before the
    locked tail is in the assembled block at the same position.  In
    particular a base block that is too long loses its tail, not its head. *)
Theorem assembled_head_is_base length prev_samples anchor_samples mlc end_samples
    anchor base a :
  subscript_samples anchor_samples = Ok anchor ->
  base_block anchor prev_samples mlc = Ok base ->
  assemble process_out length prev_samples anchor_samples mlc end_samples = Ok a ->
  forall b c t h w,
    t < dimT (shape base) ->
    (Z.of_nat t < total_latents_of length - end_t_fix a)%Z ->
    at5 (image_cond_latent a) b c t h w = at5 base b c t h w.
Proof.
  intros Hanchor Hb Ha b c t h w Ht Hk.
  destruct (assembled_before_lock _ _ _ _ _ _ _ _ Hanchor Hb Ha) as (padded & Hp & He).
  rewrite He by exact Hk.
  now apply (pad_block_prefix _ _ _ _ _ _ _ Hp).
Qed.

(** X10. In the assembled block the anchor's slots come first and the
    motion tail follows them: before the locked tail, slot [t < T_anchor]
    is the anchor's slot [t], and slot [T_anchor + i] is slot
    [T_prev - motion_count + i] of the previous block, where
    [motion_count = min motion_latent_count T_prev]. *)
Theorem assembled_anchor_then_motion length prev anchor_samples mlc end_samples
    anchor p a :
  subscript_samples anchor_samples = Ok anchor ->
  getitem_samples prev = Ok p ->
  mlc <> 0%Z ->
  assemble process_out length (Some prev) anchor_samples mlc end_samples = Ok a ->
  let free := (total_latents_of length - end_t_fix a)%Z in
  let mc := Z.to_nat (Z.min mlc (Z.of_nat (dimT (shape p)))) in
  (forall b c t h w, t < dimT (shape anchor) -> (Z.of_nat t < free)%Z ->
     at5 (image_cond_latent a) b c t h w = at5 anchor b c t h w)
  /\ (forall b c i h w, i < mc ->
        (Z.of_nat (dimT (shape anchor) + i) < free)%Z ->
        at5 (image_cond_latent a) b c (dimT (shape anchor) + i) h w
        = at5 p b c (dimT (shape p) - mc + i) h w).
Proof.
  intros Hanchor Hp Hmlc Ha. cbv zeta.
  pose proof Ha as Ha0.
  apply assemble_inv in Ha0 as (anchor' & base & _ & Ha' & Hb & _).
  cbv zeta in *. rewrite Hanchor in Ha'. injection Ha' as <-.
  destruct (base_block_content _ _ _ _ Hb) as [Hhead Htail].
  destruct (Htail prev p eq_refl Hp Hmlc) as [HT Hmotion]. cbv zeta in HT, Hmotion.
  pose proof (base_block_shape _ _ _ _ Hb) as [_ Hge].
  destruct (assembled_before_lock _ _ _ _ _ _ _ _ Hanchor Hb Ha) as (padded & Hpad & He).
  pose proof (pad_block_prefix _ _ _ _ _ _ _ Hpad) as Hkeep.
  split.
  - intros b c t h w Ht Hfree.
    rewrite He by exact Hfree. rewrite Hkeep by lia. now apply Hhead.
  - intros b c i h w Hi Hfree.
    rewrite He by exact Hfree. rewrite Hkeep by lia. now apply Hmotion.
Qed.
End AssembledContent.

(** ** WanImageToVideoSVIProFLF: the end lock in general *)

Section EndLockGeneral.
Context {elem : Type} {DT : Dtype elem}.
Variable process_out : Tensor elem -> Tensor elem.
Hypothesis process_out_shape : forall x, shape (process_out x) = shape x.
Import WanImageToVideoSVIProFLF.

Implicit Types (anchor base padded x : Tensor elem).
Implicit Types (prev_samples anchor_samples end_samples
                : option (gmap string (pyval elem))).

#[local] Arguments end_lock : simpl never.
#[local] Arguments base_block : simpl never.
#[local] Arguments pad_block : simpl never.

(** An end block with the anchor's channel, height and width that locks
    no slot leaves the block as it is, whatever its batch. *)
Lemma end_lock_no_slot padded B C H W total e x :
  getitem_samples e = Ok x ->
  dimC (shape x) = C -> dimH (shape x) = H -> dimW (shape x) = W ->
  (Z.min (Z.of_nat (dimT (shape x))) total <= 0)%Z ->
  end_lock padded B C H W total (Some e)
  = Ok (padded, Z.min (Z.of_nat (dimT (shape x))) total).
Proof.
  intros Hx HC HH HW Hk. unfold end_lock. rewrite Hx. simpl.
  assert (Hdims : forall y : Tensor elem,
             y = (if (dimB (shape x) =? 1) && (1 <? B) then repeat_batch x B else x) ->
             dimC (shape y) = C /\ dimH (shape y) = H /\ dimW (shape y) = W
             /\ dimT (shape y) = dimT (shape x)).
  { intros y ->. destruct ((dimB (shape x) =? 1) && (1 <? B)); simpl; auto. }
  destruct (Hdims _ eq_refl) as (-> & -> & -> & ->).
  rewrite !Nat.eqb_refl. simpl.
  destruct (Z.ltb_spec 0 (Z.min (Z.of_nat (dimT (shape x))) total)); [lia|reflexivity].
Qed.

(** X11. An end block with the anchor's channel, height and width locks
    the last [k = min T_end total_latents] slots of the assembled block to
    its own last [k] slots, in order; with batch 1 the same slots go to
    every batch row.  This holds for every run that returns, also when the
    end block is shorter than the clip. *)
Theorem end_block_locks_tail length prev_samples anchor_samples mlc e x anchor a :
  subscript_samples anchor_samples = Ok anchor ->
  getitem_samples e = Ok x ->
  dimC (shape x) = dimC (shape anchor) ->
  dimH (shape x) = dimH (shape anchor) ->
  dimW (shape x) = dimW (shape anchor) ->
  assemble process_out length prev_samples anchor_samples mlc (Some e) = Ok a ->
  let total := Z.to_nat (total_latents_of length) in
  let k := Z.to_nat (Z.min (Z.of_nat (dimT (shape x))) (total_latents_of length)) in
  end_t_fix a = Z.min (Z.of_nat (dimT (shape x))) (total_latents_of length)
  /\ forall b c t h w,
       in_range (shape (image_cond_latent a)) b c t h w -> total - k <= t ->
       at5 (image_cond_latent a) b c t h w
       = at5 x (bcast_index (dimB (shape x)) b) c
               (dimT (shape x) - k + (t - (total - k))) h w.
Proof.
  intros Hanchor Hx HC HH HW Ha. cbv zeta.
  destruct (assemble_shapes process_out process_out_shape _ _ _ _ _ _ _ Hanchor Ha)
    as (Hpos & Hsi & _).
  cbv zeta in *.
  apply assemble_inv in Ha as (anchor' & base & padded & Ha' & Hb & Hp & He & _).
  cbv zeta in *. rewrite Hanchor in Ha'. injection Ha' as <-.
  destruct (padded_shape process_out process_out_shape _ _ _ _ _ Hb Hpos)
    as (padded' & Hp' & Hps).
  cbv zeta in Hp'. rewrite Hp in Hp'. injection Hp' as <-.
  pose proof (end_lock_fix _ _ _ _ _ _ _ _ _ He) as Hk.
  unfold spec_locked_tail in Hk. rewrite Hx, HC, HH, HW, !Nat.eqb_refl in Hk.
  simpl in Hk. split; [exact Hk|].
  intros b c t h w Hin Ht. rewrite Hsi in Hin.
  assert (Hkpos : (0 < Z.min (Z.of_nat (dimT (shape x))) (total_latents_of length))%Z).
  { destruct Hin as (_ & _ & Hlt & _). simpl in Hlt. lia. }
  assert (HB : dimB (shape x) = dimB (shape anchor) \/ dimB (shape x) = 1).
  { destruct (Nat.eq_dec (dimB (shape x)) (dimB (shape anchor))) as [EB|EB]; [now left|].
    destruct (Nat.eq_dec (dimB (shape x)) 1) as [E1|E1]; [now right|].
    rewrite (end_lock_batch_mismatch padded _ _ _ _ _ e x Hx HC HH HW) in He;
      [discriminate | now rewrite Hps | exact EB | exact E1 | lia | lia]. }
  destruct (end_lock_overwrite padded _ _ _ _ _ e x Hx HC HH HW Hps HB)
    as (locked & Hl & _ & Hat).
  rewrite He in Hl. injection Hl as <-.
  rewrite Hat by (now rewrite Hps). cbv zeta.
  destruct (Nat.leb_spec
              (Z.to_nat (total_latents_of length)
               - Z.to_nat (Z.min (Z.of_nat (dimT (shape x))) (total_latents_of length)))
              t); [reflexivity | lia].
Qed.

(** X20. An end block without slots changes nothing: the run is the run
    without [end_samples], whatever the block's other dimensions. *)
Theorem empty_end_block_is_ignored positive negative length prev_samples
    anchor_samples mlc e x :
  getitem_samples e = Ok x ->
  dimT (shape x) = 0 ->
  execute process_out positive negative length prev_samples anchor_samples mlc (Some e)
  = execute process_out positive negative length prev_samples anchor_samples mlc None.
Proof.
  intros Hx HT. unfold execute. f_equal. unfold assemble.
  destruct (subscript_samples anchor_samples) as [anchor|]; simpl; [|reflexivity].
  destruct (base_block anchor prev_samples mlc) as [base|]; simpl; [|reflexivity].
  destruct (pad_block _ _ _ _ _ _ _) as [padded|]; simpl; [|reflexivity].
  destruct (Nat.eq_dec (dimC (shape x)) (dimC (shape anchor))) as [HC|HC];
    [destruct (Nat.eq_dec (dimH (shape x)) (dimH (shape anchor))) as [HH|HH];
     [destruct (Nat.eq_dec (dimW (shape x)) (dimW (shape anchor))) as [HW|HW]|]|].
  - rewrite (end_lock_no_slot padded _ _ _ _ _ e x Hx HC HH HW) by (rewrite HT; lia).
    rewrite HT. unfold end_lock. simpl.
    destruct (Z.le_gt_cases 0 (total_latents_of length)) as [Hpos|Hneg].
    + now rewrite Z.min_l by exact Hpos.
    + unfold full. destruct (Z.ltb_spec (total_latents_of length) 0); [reflexivity|lia].
  - now rewrite (end_lock_mismatch padded _ _ _ _ _ e x Hx) by auto.
  - now rewrite (end_lock_mismatch padded _ _ _ _ _ e x Hx) by auto.
  - now rewrite (end_lock_mismatch padded _ _ _ _ _ e x Hx) by auto.
Qed.
End EndLockGeneral.

(** ** WanImageToVideoSVIProFLF: when the run returns *)

Section Returns.
Context {elem : Type} {DT : Dtype elem}.
Variable process_out : Tensor elem -> Tensor elem.
Hypothesis process_out_shape : forall x, shape (process_out x) = shape x.
Import WanImageToVideoSVIProFLF.

Implicit Types (anchor base padded x p : Tensor elem).
Implicit Types (prev_samples anchor_samples end_samples
                : option (gmap string (pyval elem))).

#[local] Arguments end_lock : simpl never.
#[local] Arguments base_block : simpl never.
#[local] Arguments pad_block : simpl never.
#[local] Arguments concat_mask : simpl never.


(** X12. A previous block that contributes at least one slot and whose
    batch, channel, height or width differs from the anchor's is not
    skipped: the run raises at the concatenation. *)
Theorem mismatched_prev_block_raises positive negative length prev anchor_samples mlc
    end_samples anchor p :
  subscript_samples anchor_samples = Ok anchor ->
  getitem_samples prev = Ok p ->
  (0 < Z.min mlc (Z.of_nat (dimT (shape p))))%Z ->
  same_BCHW (shape anchor) (shape p) = false ->
  execute process_out positive negative length (Some prev) anchor_samples mlc
    end_samples = Raise (RuntimeError OpCat).
Proof.
  intros Hanchor Hp Hm Hsame.
  unfold execute, assemble. rewrite Hanchor. simpl.
  unfold base_block. rewrite Hp. simpl.
  destruct (Z.eqb_spec mlc 0); [lia|].
  destruct (Z.ltb_spec 0 (Z.min mlc (Z.of_nat (dimT (shape p))))); [|lia].
  unfold cat_time. rewrite narrow_time_shape.
  replace (same_BCHW (shape anchor) (with_T (shape p) _))
    with (same_BCHW (shape anchor) (shape p)) by reflexivity.
  rewrite Hsame. reflexivity.
Qed.

(** X13. A previous block that contributes no slot, because it is empty
    or the requested count is not positive, is never looked at further:
    the run is the run without [prev_samples], whatever the block's shape. *)
Theorem slotless_prev_block_is_ignored positive negative length prev anchor_samples
    mlc end_samples p :
  getitem_samples prev = Ok p ->
  (Z.min mlc (Z.of_nat (dimT (shape p))) <= 0)%Z ->
  execute process_out positive negative length (Some prev) anchor_samples mlc
    end_samples
  = execute process_out positive negative length None anchor_samples mlc end_samples.
Proof.
  intros Hp Hm. unfold execute, assemble.
  destruct (subscript_samples anchor_samples) as [anchor|]; simpl; [|reflexivity].
  assert (Hb : base_block anchor (Some prev) mlc = base_block anchor None mlc).
  { unfold base_block. destruct (mlc =? 0)%Z; [reflexivity|].
    rewrite Hp. simpl.
    destruct (Z.ltb_spec 0 (Z.min mlc (Z.of_nat (dimT (shape p))))); [lia|reflexivity]. }
  now rewrite Hb.
Qed.

(** X14. With [length <= 0] a run that returns has [length >= -3], that
    is [total_latents = 0], and every tensor it produces has no temporal
    slot; for [length <= -4] the run always raises. *)
Theorem nonpositive_length_gives_no_slot length prev_samples anchor_samples mlc
    end_samples :
  (length <= 0)%Z ->
  match assemble process_out length prev_samples anchor_samples mlc end_samples with
  | Ok a =>
      (-3 <= length)%Z
      /\ dimT (shape (image_cond_latent a)) = 0
      /\ dimT (shape (mask a)) = 0
      /\ dimT (shape (empty_latent a)) = 0
  | Raise _ => True
  end.
Proof.
  intros Hlen.
  destruct (assemble _ _ _ _ _ _) as [a|] eqn:Ha; [|exact I].
  pose proof Ha as Ha0.
  apply assemble_inv in Ha0 as (anchor & _ & _ & Hanchor & _).
  destruct (assemble_shapes process_out process_out_shape _ _ _ _ _ _ _ Hanchor Ha)
    as (Hpos & -> & -> & ->).
  cbv zeta in Hpos. simpl.
  assert (Htot : total_latents_of length = 0%Z /\ (-3 <= length)%Z).
  { unfold total_latents_of in *.
    pose proof (Z.mul_div_le (length - 1) 4).
    pose proof (Z.mul_succ_div_gt (length - 1) 4). lia. }
  destruct Htot as [-> Hge]. auto.
Qed.




(** X16. For [1 <= length <= 4] there is a single temporal slot, and it
    is locked: the mask of a run that returns is zero everywhere, with or
    without an end block. *)
Theorem single_slot_clip_is_fully_locked length prev_samples anchor_samples mlc
    end_samples a :
  (1 <= length <= 4)%Z ->
  assemble process_out length prev_samples anchor_samples mlc end_samples = Ok a ->
  dimT (shape (mask a)) = 1
  /\ forall b c t h w, in_range (shape (mask a)) b c t h w ->
       at5 (mask a) b c t h w = zero_val.
Proof.
  intros Hlen Ha.
  assert (Htot : total_latents_of length = 1%Z).
  { unfold total_latents_of.
    pose proof (Z.mul_div_le (length - 1) 4).
    pose proof (Z.mul_succ_div_gt (length - 1) 4). lia. }
  apply assemble_inv in Ha as (anchor & base & padded & _ & _ & _ & _ & _ & Hm).
  cbv zeta in Hm. rewrite Htot in Hm.
  apply concat_mask_spec in Hm as (_ & Hs & Hat).
  rewrite Hs. split; [reflexivity|].
  intros b c t h w (_ & _ & Ht & _). simpl in Ht.
  rewrite Hat by exact Ht.
  destruct (Nat.eqb_spec t 0); [reflexivity | lia].
Qed.
End Returns.

(** ** Schemas, registration and conditioning *)

Lemma assembler_schema_ranges (MAX_RESOLUTION v : Z) :
  (admits (WanImageToVideoSVIProFLF.define_schema MAX_RESOLUTION) "length" v
   <-> (1 <= v <= MAX_RESOLUTION)%Z)
  /\ (admits (WanImageToVideoSVIProFLF.define_schema MAX_RESOLUTION)
        "motion_latent_count" v
      <-> (0 <= v <= 16)%Z).
Proof.
  unfold admits, WanImageToVideoSVIProFLF.define_schema. simpl. split; split.
  - intros (d & mn & mx & st & Hin & Hv).
    repeat (apply elem_of_cons in Hin as [Hin|Hin]; [try discriminate|]);
      [injection Hin as -> -> -> ->; exact Hv | now apply elem_of_nil in Hin].
  - intros Hv. exists 81%Z, 1%Z, MAX_RESOLUTION, 4%Z. split; [|exact Hv].
    do 2 (apply elem_of_cons; right). apply elem_of_cons. now left.
  - intros (d & mn & mx & st & Hin & Hv).
    repeat (apply elem_of_cons in Hin as [Hin|Hin]; [try discriminate|]);
      [injection Hin as -> -> -> ->; exact Hv | now apply elem_of_nil in Hin].
  - intros Hv. exists 1%Z, 0%Z, 16%Z, 1%Z. split; [|exact Hv].
    do 6 (apply elem_of_cons; right). apply elem_of_cons. now left.
Qed.

(** X17. Within the ranges the schema declares for [length] and
    [motion_latent_count], there is at least one temporal slot, at most
    [(MAX_RESOLUTION - 1) / 4 + 1], and the base block has the anchor's
    slots and at most 16 more. *)
Theorem schema_ranges_bound_the_block {elem} (MAX_RESOLUTION length mlc : Z)
    (anchor base : Tensor elem) prev_samples :
  admits (WanImageToVideoSVIProFLF.define_schema MAX_RESOLUTION) "length" length ->
  admits (WanImageToVideoSVIProFLF.define_schema MAX_RESOLUTION)
    "motion_latent_count" mlc ->
  WanImageToVideoSVIProFLF.base_block anchor prev_samples mlc = Ok base ->
  (1 <= WanImageToVideoSVIProFLF.total_latents_of length
   <= (MAX_RESOLUTION - 1) / 4 + 1)%Z
  /\ dimT (shape anchor) <= dimT (shape base) <= dimT (shape anchor) + 16.
Proof.
  intros Hlen Hmlc Hb.
  apply (proj1 (assembler_schema_ranges MAX_RESOLUTION length)) in Hlen.
  apply (proj2 (assembler_schema_ranges MAX_RESOLUTION mlc)) in Hmlc.
  split.
  - unfold WanImageToVideoSVIProFLF.total_latents_of. split.
    + pose proof (Z.mul_succ_div_gt (length - 1) 4). lia.
    + apply Z.add_le_mono_r, Z.div_le_mono; lia.
  - unfold WanImageToVideoSVIProFLF.base_block in Hb.
    destruct prev_samples as [prev|]; [|injection Hb as <-; lia].
    destruct (mlc =? 0)%Z; [injection Hb as <-; lia|].
    destruct (getitem_samples prev) as [p|]; simpl in Hb; [|discriminate].
    destruct (Z.ltb_spec 0 (Z.min mlc (Z.of_nat (dimT (shape p)))));
      [|injection Hb as <-; lia].
    unfold cat_time in Hb. destruct (same_BCHW _ _); [|discriminate].
    injection Hb as <-. simpl.
    rewrite slice_hi_none, slice_lo_last by assumption. lia.
Qed.

Lemma schema_ranges_bound_the_block_witness :
  (1 <= WanImageToVideoSVIProFLF.total_latents_of 81 <= (16384 - 1) / 4 + 1)%Z
  /\ exists base,
       WanImageToVideoSVIProFLF.base_block anchor1 (Some (latent_of prev3)) 16 = Ok base
       /\ dimT (shape base) = 4.
Proof.
  destruct (WanImageToVideoSVIProFLF.base_block anchor1 (Some (latent_of prev3)) 16)
    as [base|] eqn:Hb; [|vm_compute in Hb; discriminate Hb].
  destruct (schema_ranges_bound_the_block 16384 81 16 anchor1 base
              (Some (latent_of prev3))
              ltac:(apply assembler_schema_ranges; lia)
              ltac:(apply assembler_schema_ranges; lia) Hb) as [Htot _].
  split; [exact Htot|]. exists base. split; [reflexivity|].
  vm_compute in Hb. injection Hb as <-. reflexivity.
Defined.

(** X18. Registration: every node class is registered under the node id
    of its own schema, nothing else is registered, and the class table and
    the display-name table have the same keys. *)
Theorem registry_is_consistent (MAX_RESOLUTION : Z) :
  (forall c, NODE_CLASS_MAPPINGS !! node_id (schema_of MAX_RESOLUTION c) = Some c)
  /\ (forall k c, NODE_CLASS_MAPPINGS !! k = Some c ->
        k = node_id (schema_of MAX_RESOLUTION c))
  /\ dom NODE_CLASS_MAPPINGS = dom NODE_DISPLAY_NAME_MAPPINGS.
Proof.
  unfold NODE_CLASS_MAPPINGS, NODE_DISPLAY_NAME_MAPPINGS. split; [|split].
  - intros [|]; simpl.
    + apply lookup_insert_eq.
    + rewrite lookup_insert_ne by discriminate. apply lookup_singleton_eq.
  - intros k c Hk.
    apply lookup_insert_Some in Hk as [[<- <-]|[_ Hk]]; [reflexivity|].
    apply lookup_singleton_Some in Hk as [<- <-]. reflexivity.
  - now rewrite !dom_insert_L, !dom_singleton_L.
Qed.

(** X19. The run changes the conditionings only by setting the two keys:
    each output entry keeps the input entry's first component and every
    other option, and carries the assembled block and the mask, also when
    the input entry already had these keys; positive and negative get the
    same block and mask. *)
Theorem conditioning_only_gains_block_and_mask {elem} {DT : Dtype elem}
    (process_out : Tensor elem -> Tensor elem) positive negative length
    prev_samples anchor_samples mlc end_samples a :
  WanImageToVideoSVIProFLF.assemble process_out length prev_samples anchor_samples
    mlc end_samples = Ok a ->
  exists out,
    WanImageToVideoSVIProFLF.execute process_out positive negative length
      prev_samples anchor_samples mlc end_samples = Ok out
    /\ Forall2 (fun (t t' : cond_entry elem) =>
                  t'.1 = t.1
                  /\ t'.2 !! "concat_latent_image"
                     = Some (PTensor (WanImageToVideoSVIProFLF.image_cond_latent a))
                  /\ t'.2 !! "concat_mask"
                     = Some (PTensor (WanImageToVideoSVIProFLF.mask a))
                  /\ forall k, k <> "concat_latent_image" -> k <> "concat_mask" ->
                       t'.2 !! k = t.2 !! k)
               (positive ++ negative) (out_positive out ++ out_negative out)
    /\ List.length (out_positive out) = List.length positive.
Proof.
  intros Ha. unfold WanImageToVideoSVIProFLF.execute. rewrite Ha. simpl.
  eexists. split; [reflexivity|]. simpl. split.
  - unfold conditioning_set_values. rewrite <- fmap_app.
    apply Forall2_fmap_r, Forall_Forall2_diag, Forall_forall.
    intros t _. simpl. split; [reflexivity|]. split; [|split].
    + apply lookup_union_Some_l, lookup_insert_eq.
    + apply lookup_union_Some_l. rewrite lookup_insert_ne by discriminate.
      apply lookup_singleton_eq.
    + intros k Hk1 Hk2. apply lookup_union_r.
      rewrite lookup_insert_ne by congruence. now apply lookup_singleton_ne.
  - unfold conditioning_set_values. apply length_fmap.
Qed.

(** ** The further properties on concrete inputs *)

Lemma empty_latent_is_zero_witness :
  match WanImageToVideoSVIProFLF.execute affine_out [] [] 21 (Some (latent_of prev3))
          (Some (latent_of anchor1)) 2 None with
  | Ok out =>
      exists empty,
        out_latent out = latent_of empty
        /\ shape empty = mkShape 1 16 6 8 8
        /\ at5 empty 0 15 5 7 7 = 0%Z
  | Raise _ => False
  end.
Proof.
  destruct (WanImageToVideoSVIProFLF.execute _ _ _ _ _ _ _ _) as [out|err] eqn:Hexe;
    [|vm_compute in Hexe; discriminate Hexe].
  destruct (empty_latent_is_zero affine_out [] [] 21 (Some (latent_of prev3))
              (Some (latent_of anchor1)) 2 None anchor1 out eq_refl Hexe)
    as (empty & Hout & Hs & Hz).
  exists empty. split; [exact Hout|]. split; [exact Hs | apply Hz].
Defined.

(** A base block of four slots cut to two: the anchor and the first
    motion slot stay. *)
Lemma assembled_head_is_base_witness :
  match WanImageToVideoSVIProFLF.assemble affine_out 5 (Some (latent_of prev3))
          (Some (latent_of anchor1)) 3 None with
  | Ok a =>
      at5 (WanImageToVideoSVIProFLF.image_cond_latent a) 0 0 0 0 0 = 10%Z
      /\ at5 (WanImageToVideoSVIProFLF.image_cond_latent a) 0 0 1 0 0 = 50%Z
  | Raise _ => False
  end.
Proof.
  destruct (WanImageToVideoSVIProFLF.assemble _ _ _ _ _ _) as [a|err] eqn:Ha;
    [|vm_compute in Ha; discriminate Ha].
  assert (Hk : WanImageToVideoSVIProFLF.end_t_fix a = 0%Z).
  { pose proof Ha as Ha'. vm_compute in Ha'. injection Ha' as <-. reflexivity. }
  destruct (WanImageToVideoSVIProFLF.base_block anchor1 (Some (latent_of prev3)) 3)
    as [base|] eqn:Hb; [|vm_compute in Hb; discriminate Hb].
  pose proof (assembled_head_is_base affine_out affine_out_shape 5
                (Some (latent_of prev3)) (Some (latent_of anchor1)) 3 None anchor1 base a
                eq_refl Hb Ha) as Hhead.
  assert (Hbase : base = ltac:(let t := eval vm_compute in
                    (match WanImageToVideoSVIProFLF.base_block anchor1
                             (Some (latent_of prev3)) 3 with
                     | Ok b => b | Raise _ => anchor1 end) in exact t)).
  { vm_compute in Hb. injection Hb as <-. reflexivity. }
  split; rewrite Hhead; rewrite ?Hk, ?Hbase; simpl; try reflexivity;
    try lia; now vm_compute.
Defined.

Lemma assembled_anchor_then_motion_witness :
  match WanImageToVideoSVIProFLF.assemble affine_out 21 (Some (latent_of prev3))
          (Some (latent_of anchor1)) 2 (Some (latent_of end2)) with
  | Ok a =>
      at5 (WanImageToVideoSVIProFLF.image_cond_latent a) 0 0 0 0 0 = 10%Z
      /\ at5 (WanImageToVideoSVIProFLF.image_cond_latent a) 0 0 1 0 0 = 51%Z
      /\ at5 (WanImageToVideoSVIProFLF.image_cond_latent a) 0 0 2 0 0 = 52%Z
  | Raise _ => False
  end.
Proof.
  destruct (WanImageToVideoSVIProFLF.assemble _ _ _ _ _ _) as [a|err] eqn:Ha;
    [|vm_compute in Ha; discriminate Ha].
  assert (Hk : WanImageToVideoSVIProFLF.end_t_fix a = 2%Z).
  { pose proof Ha as Ha'. vm_compute in Ha'. injection Ha' as <-. reflexivity. }
  destruct (assembled_anchor_then_motion affine_out affine_out_shape 21
              (latent_of prev3) (Some (latent_of anchor1)) 2 (Some (latent_of end2))
              anchor1 prev3 a eq_refl eq_refl ltac:(lia) Ha) as [Hanchor Hmotion].
  rewrite Hk in Hanchor, Hmotion.
  split; [|split].
  - rewrite Hanchor; [reflexivity | simpl; lia | now vm_compute].
  - exact (Hmotion 0 0 0 0 0 ltac:(simpl; lia) ltac:(now vm_compute)).
  - exact (Hmotion 0 0 1 0 0 ltac:(simpl; lia) ltac:(now vm_compute)).
Defined.

(** An end block of batch 1 and two slots against a working batch of 3:
    the last two slots of every batch row are the end block's. *)
Lemma end_block_locks_tail_witness :
  match WanImageToVideoSVIProFLF.assemble affine_out 21 None
          (Some (latent_of anchor_b3)) 1 (Some (latent_of end2)) with
  | Ok a =>
      WanImageToVideoSVIProFLF.end_t_fix a = 2%Z
      /\ at5 (WanImageToVideoSVIProFLF.image_cond_latent a) 2 0 4 0 0 = 90%Z
      /\ at5 (WanImageToVideoSVIProFLF.image_cond_latent a) 2 0 5 0 0 = 91%Z
  | Raise _ => False
  end.
Proof.
  destruct (WanImageToVideoSVIProFLF.assemble _ _ _ _ _ _) as [a|err] eqn:Ha;
    [|vm_compute in Ha; discriminate Ha].
  assert (Hs : shape (WanImageToVideoSVIProFLF.image_cond_latent a)
               = mkShape 3 4 6 8 8).
  { pose proof Ha as Ha'. vm_compute in Ha'. injection Ha' as <-. reflexivity. }
  destruct (end_block_locks_tail affine_out affine_out_shape 21 None
              (Some (latent_of anchor_b3)) 1 (latent_of end2) end2 anchor_b3 a
              eq_refl eq_refl eq_refl eq_refl eq_refl Ha) as [Hk Hat].
  split; [exact Hk|].
  split; rewrite Hat;
    try reflexivity; try (rewrite Hs; unfold in_range; simpl; lia);
    try (vm_compute; lia).
Defined.

Lemma empty_end_block_is_ignored_witness :
  WanImageToVideoSVIProFLF.execute affine_out [] [] 21 None (Some (latent_of anchor1))
    1 (Some (latent_of end_empty))
  = WanImageToVideoSVIProFLF.execute affine_out [] [] 21 None
      (Some (latent_of anchor1)) 1 None.
Proof.
  apply (empty_end_block_is_ignored affine_out [] [] 21 None (Some (latent_of anchor1))
           1 (latent_of end_empty) end_empty); reflexivity.
Defined.

Lemma mismatched_prev_block_raises_witness :
  WanImageToVideoSVIProFLF.execute affine_out [] [] 21 (Some (latent_of prev_c3))
    (Some (latent_of anchor1)) 2 None = Raise (RuntimeError OpCat).
Proof.
  apply (mismatched_prev_block_raises affine_out [] [] 21 (latent_of prev_c3)
           (Some (latent_of anchor1)) 2 None anchor1 prev_c3);
    try reflexivity.
Defined.

Lemma slotless_prev_block_is_ignored_witness :
  WanImageToVideoSVIProFLF.execute affine_out [] [] 21
    (Some (latent_of prev_empty_c3)) (Some (latent_of anchor1)) 2 None
  = WanImageToVideoSVIProFLF.execute affine_out [] [] 21 None
      (Some (latent_of anchor1)) 2 None.
Proof.
  apply (slotless_prev_block_is_ignored affine_out [] [] 21 (latent_of prev_empty_c3)
           (Some (latent_of anchor1)) 2 None prev_empty_c3);
    [reflexivity | now vm_compute].
Defined.

Lemma nonpositive_length_gives_no_slot_witness :
  match WanImageToVideoSVIProFLF.assemble affine_out (-2) None
          (Some (latent_of anchor1)) 1 None with
  | Ok a => dimT (shape (WanImageToVideoSVIProFLF.image_cond_latent a)) = 0
  | Raise _ => False
  end
  /\ raises (WanImageToVideoSVIProFLF.assemble affine_out (-4) None
               (Some (latent_of anchor1)) 1 None) = true.
Proof.
  pose proof (nonpositive_length_gives_no_slot affine_out affine_out_shape (-2) None
                (Some (latent_of anchor1)) 1 None ltac:(lia)) as H2.
  pose proof (nonpositive_length_gives_no_slot affine_out affine_out_shape (-4) None
                (Some (latent_of anchor1)) 1 None ltac:(lia)) as H4.
  split.
  - clear H4. revert H2.
    destruct (WanImageToVideoSVIProFLF.assemble _ _ _ _ _ _) as [a|err] eqn:Ha;
      [intros H2; exact (proj1 (proj2 H2)) | vm_compute in Ha; discriminate Ha].
  - clear H2. revert H4.
    destruct (WanImageToVideoSVIProFLF.assemble _ _ _ _ _ _) as [a|err];
      [intros [H4 _]; lia | reflexivity].
Defined.


Lemma single_slot_clip_is_fully_locked_witness :
  match WanImageToVideoSVIProFLF.assemble affine_out 3 None
          (Some (latent_of anchor1)) 1 None with
  | Ok a => slots_at (WanImageToVideoSVIProFLF.mask a) 0 0 0 0 = [0%Z]
  | Raise _ => False
  end.
Proof.
  destruct (WanImageToVideoSVIProFLF.assemble _ _ _ _ _ _) as [a|err] eqn:Ha;
    [|vm_compute in Ha; discriminate Ha].
  destruct (single_slot_clip_is_fully_locked affine_out 3 None
              (Some (latent_of anchor1)) 1 None a ltac:(lia) Ha) as [HT Hz].
  assert (Hs : shape (WanImageToVideoSVIProFLF.mask a) = mkShape 1 1 1 8 8).
  { pose proof Ha as Ha'. vm_compute in Ha'. injection Ha' as <-. reflexivity. }
  unfold slots_at. rewrite HT. simpl.
  rewrite Hz by (rewrite Hs; unfold in_range; simpl; lia). reflexivity.
Defined.

(** An input entry that already has a mask and a prompt: the mask is
    replaced, the prompt is kept. *)
Lemma conditioning_only_gains_block_and_mask_witness :
  match WanImageToVideoSVIProFLF.assemble affine_out 21 None
          (Some (latent_of anchor1)) 1 None with
  | Ok a =>
      exists out,
        WanImageToVideoSVIProFLF.execute affine_out
          [(5%Z, <["concat_mask" := POpaque 1]> {["prompt" := POpaque 2]})] []
          21 None (Some (latent_of anchor1)) 1 None = Ok out
        /\ List.length (out_positive out) = 1
  | Raise _ => False
  end.
Proof.
  destruct (WanImageToVideoSVIProFLF.assemble _ _ _ _ _ _) as [a|err] eqn:Ha;
    [|vm_compute in Ha; discriminate Ha].
  destruct (conditioning_only_gains_block_and_mask affine_out
              [(5%Z, <["concat_mask" := POpaque 1]> {["prompt" := POpaque 2]})] []
              21 None (Some (latent_of anchor1)) 1 None a Ha)
    as (out & Hout & _ & Hlen).
  exists out. split; [exact Hout | exact Hlen].
Defined.

(** ** The latent format and the shapes of the results *)

Section FormatAndShapes.
Context {elem : Type} {DT : Dtype elem}.
Import WanImageToVideoSVIProFLF.

Implicit Types (anchor base : Tensor elem).
Implicit Types (prev_samples anchor_samples end_samples
                : option (gmap string (pyval elem))).

#[local] Arguments end_lock : simpl never.
#[local] Arguments base_block : simpl never.
#[local] Arguments concat_mask : simpl never.

(** X21. The latent format is consulted for padding only: when the base
    block already has [total_latents] slots or more, the run does not
    depend on [process_out] at all. *)
Theorem format_only_matters_for_padding (f g : Tensor elem -> Tensor elem)
    positive negative length prev_samples anchor_samples mlc end_samples anchor base :
  subscript_samples anchor_samples = Ok anchor ->
  base_block anchor prev_samples mlc = Ok base ->
  (total_latents_of length <= Z.of_nat (dimT (shape base)))%Z ->
  execute f positive negative length prev_samples anchor_samples mlc end_samples
  = execute g positive negative length prev_samples anchor_samples mlc end_samples.
Proof.
  intros Hanchor Hb Hle. unfold execute, assemble.
  rewrite Hanchor. simpl. rewrite Hb. simpl.
  assert (Hpad : forall B C H W,
             pad_block f base B C H W (total_latents_of length)
             = pad_block g base B C H W (total_latents_of length)).
  { intros B C H W. unfold pad_block.
    replace (Z.max (total_latents_of length - Z.of_nat (dimT (shape base))) 0)
      with 0%Z by lia.
    reflexivity. }
  now rewrite Hpad.
Qed.

(** X22. Every run that returns gives a block of shape
    [(B, C, total_latents, H, W)] with the anchor's [B], [C], [H], [W], and
    a mask of shape [(1, 1, total_latents, H, W)]: whenever [(b, c, t, h, w)]
    is an index of the block, [(0, 0, t, h, w)] is an index of the mask. *)
Theorem block_and_mask_shapes (process_out : Tensor elem -> Tensor elem) length
    prev_samples anchor_samples mlc end_samples anchor a :
  (forall x, shape (process_out x) = shape x) ->
  subscript_samples anchor_samples = Ok anchor ->
  assemble process_out length prev_samples anchor_samples mlc end_samples = Ok a ->
  shape (image_cond_latent a)
  = mkShape (dimB (shape anchor)) (dimC (shape anchor))
      (Z.to_nat (total_latents_of length)) (dimH (shape anchor)) (dimW (shape anchor))
  /\ forall b c t h w,
       in_range (shape (image_cond_latent a)) b c t h w ->
       in_range (shape (mask a)) 0 0 t h w.
Proof.
  intros Hshape Hanchor Ha.
  destruct (assemble_shapes process_out Hshape _ _ _ _ _ _ _ Hanchor Ha)
    as (_ & Hsi & _ & Hsm).
  cbv zeta in *. split; [exact Hsi|].
  intros b c t h w. rewrite Hsi, Hsm. unfold in_range. simpl. lia.
Qed.
End FormatAndShapes.

Lemma format_only_matters_for_padding_witness :
  WanImageToVideoSVIProFLF.execute affine_out [] [] 5 (Some (latent_of prev3))
    (Some (latent_of anchor1)) 3 None
  = WanImageToVideoSVIProFLF.execute (fun x => x) [] [] 5 (Some (latent_of prev3))
      (Some (latent_of anchor1)) 3 None.
Proof.
  destruct (WanImageToVideoSVIProFLF.base_block anchor1 (Some (latent_of prev3)) 3)
    as [base|] eqn:Hb; [|vm_compute in Hb; discriminate Hb].
  apply (format_only_matters_for_padding affine_out (fun x => x) [] [] 5
           (Some (latent_of prev3)) (Some (latent_of anchor1)) 3 None anchor1 base
           eq_refl Hb).
  vm_compute in Hb. injection Hb as <-. now vm_compute.
Defined.

Lemma block_and_mask_shapes_witness :
  match WanImageToVideoSVIProFLF.assemble affine_out 21 (Some (latent_of prev3))
          (Some (latent_of anchor_b3)) 0 (Some (latent_of end2)) with
  | Ok a =>
      shape (WanImageToVideoSVIProFLF.image_cond_latent a) = mkShape 3 4 6 8 8
  | Raise _ => False
  end.
Proof.
  destruct (WanImageToVideoSVIProFLF.assemble _ _ _ _ _ _) as [a|err] eqn:Ha;
    [|vm_compute in Ha; discriminate Ha].
  exact (proj1 (block_and_mask_shapes affine_out 21 (Some (latent_of prev3))
                  (Some (latent_of anchor_b3)) 0 (Some (latent_of end2)) anchor_b3 a
                  affine_out_shape eq_refl Ha)).
Defined.
